(** * Animal-shelter abandonment pipeline: cleaning, joining, reporting

    A shallow embedding of [clean_animals.py] (the Field Normalizer and the
    Joiner) and of the column handling of [analysis_model.py] (the Analyzer).

    Tables are pandas DataFrames: a row count and a finite map from column
    names to columns, every column a list of cells.  The pandas and Python
    library calls the source makes are embedded with the semantics they have
    in pandas 1.x/2.x; what a library does with text that no stated property
    looks into (parsing a number, printing a float, guessing a date format)
    is a variable of section [Pipeline]. *)

From stdpp Require Import gmap strings list.
From Stdlib Require Import ZArith Lia.

Set Warnings "-register-all".

Open Scope Z_scope.

(** ** Python text *)

Module Text.

(** A Python [str] is a sequence of Unicode code points. *)
Abbreviation pystr := (list N).

(** An ASCII literal as a Python string. *)
Definition py (s : string) : pystr :=
  (λ a, Ascii.N_of_ascii a) <$> String.list_ascii_of_string s.

(** [str.isspace] on one code point; the same class is the regular
    expression [\s] on [str] patterns. *)
Definition isspace (c : N) : bool :=
  ((9 <=? c) && (c <=? 13) || (28 <=? c) && (c <=? 32) || (c =? 133)
   || (c =? 160) || (c =? 5760) || (8192 <=? c) && (c <=? 8202)
   || (c =? 8232) || (c =? 8233) || (c =? 8239) || (c =? 8287)
   || (c =? 12288))%N.

Definition newline : N := 10%N.
Definition lbracket : N := 91%N.
Definition rbracket : N := 93%N.
Definition lparen : N := 40%N.
Definition rparen : N := 41%N.

(** [val.split()]: the maximal runs of non-whitespace, in order. *)
Fixpoint split (s : pystr) : list pystr :=
  match s with
  | [] => []
  | c :: s' =>
      if isspace c then split s'
      else match s' with
           | [] => [[c]]
           | d :: _ =>
               if isspace d then [c] :: split s'
               else match split s' with
                    | t :: ts => (c :: t) :: ts
                    | [] => [[c]]
                    end
           end
  end.

(** The greedy [\s*] at the head of a string. *)
Fixpoint lstrip (s : pystr) : pystr :=
  match s with
  | c :: s' => if isspace c then lstrip s' else s
  | [] => []
  end.

(** The lazy [.*?] followed by the closing delimiter [close], matched at the
    head of [s]: the text up to the first [close], provided no line break
    comes before it ([.] does not match a line break).  Returns the text
    matched by [.*?] and what follows the delimiter. *)
Fixpoint until_close (close : N) (s : pystr) : option (pystr * pystr) :=
  match s with
  | [] => None
  | c :: s' =>
      if (c =? close)%N then Some ([], s')
      else if (c =? newline)%N then None
      else '(x, r) ← until_close close s'; Some (c :: x, r)
  end.

(** A match of [open .*? close] at the head of [s]. *)
Definition match_group (open close : N) (s : pystr) : option (pystr * pystr) :=
  match s with
  | c :: s' => if (c =? open)%N then until_close close s' else None
  | [] => None
  end.

(** [re.search] of [open (.*?) close]: the group of the leftmost match. *)
Fixpoint search_group (open close : N) (s : pystr) : option pystr :=
  match s with
  | [] => None
  | _ :: s' =>
      match match_group open close s with
      | Some (x, _) => Some x
      | None => search_group open close s'
      end
  end.

(** [re.sub] of [open .*? close] followed by [tail] (the identity for no
    tail, [lstrip] for [\s*]) with the empty string, every match replaced.
    A match consumes at least one character; [n] bounds the characters
    left. *)
Fixpoint sub_group_go (open close : N) (tail : pystr → pystr)
    (n : nat) (s : pystr) : pystr :=
  match n with
  | O => s
  | S n' =>
      match s with
      | [] => []
      | c :: s' =>
          match match_group open close s with
          | Some (_, r) => sub_group_go open close tail n' (tail r)
          | None => c :: sub_group_go open close tail n' s'
          end
      end
  end.

Definition sub_group (open close : N) (tail : pystr → pystr) (s : pystr) : pystr :=
  sub_group_go open close tail (length s) s.

(** [r"\[(.*?)\]"] *)
Definition extract_bracketed : pystr → option pystr :=
  search_group lbracket rbracket.

(** [r"\[.*?\]\s*"] replaced by the empty string *)
Definition remove_bracketed : pystr → pystr :=
  sub_group lbracket rbracket lstrip.

(** [r"\(.*?\)"] replaced by the empty string *)
Definition remove_parenthesized : pystr → pystr :=
  sub_group lparen rparen id.

(** [r"(\d{4})"], for a class [isdecimal] of decimal digits: the leftmost
    four consecutive digits. *)
Fixpoint search_digits4 (isdecimal : N → bool) (s : pystr) : option pystr :=
  match s with
  | a :: ((b :: c :: d :: _) as s') =>
      if isdecimal a && isdecimal b && isdecimal c && isdecimal d
      then Some [a; b; c; d]
      else search_digits4 isdecimal s'
  | _ => None
  end.

(** The text has a group [open ... close] on one line. *)
Definition has_group (open close : N) (s : pystr) : Prop :=
  ∃ a x b, s = a ++ open :: x ++ close :: b ∧ newline ∉ x.

Definition starts_with_space (s : pystr) : bool :=
  match s with
  | c :: _ => isspace c
  | [] => false
  end.

End Text.

Import Text.

(** ** The calendar *)

Module Calendar.

Record date := Date { year : Z; month : Z; day : Z }.

Definition is_leap (y : Z) : bool :=
  (y mod 4 =? 0) && (negb (y mod 100 =? 0) || (y mod 400 =? 0)).

Definition days_in_month (y m : Z) : Z :=
  if m =? 2 then (if is_leap y then 29 else 28)
  else if (m =? 4) || (m =? 6) || (m =? 9) || (m =? 11) then 30
  else 31.

Definition valid_date (d : date) : bool :=
  (1 <=? year d) && (year d <=? 9999) &&
  (1 <=? month d) && (month d <=? 12) &&
  (1 <=? day d) && (day d <=? days_in_month (year d) (month d)).

(** The ASCII digit a code point denotes. *)
Definition digit (c : N) : option Z :=
  if ((48 <=? c) && (c <=? 57))%N then Some (Z.of_N c - 48) else None.

(** The format ["%Y%m%d"] on text: exactly eight ASCII digits. *)
Definition strptime_Ymd (s : pystr) : option date :=
  match s with
  | [y1; y2; y3; y4; m1; m2; d1; d2] =>
      a ← digit y1; b ← digit y2; c ← digit y3; d ← digit y4;
      e ← digit m1; f ← digit m2; g ← digit d1; h ← digit d2;
      Some (Date (1000 * a + 100 * b + 10 * c + d) (10 * e + f) (10 * g + h))
  | _ => None
  end.

(** The day of the week, Monday = 0: Sakamoto's method, as the library
    computes [dayofweek]. *)
Definition sakamoto (m : Z) : Z :=
  nth (Z.to_nat (m - 1)) [0; 3; 2; 5; 0; 3; 5; 1; 4; 6; 2; 4] 0.

Definition dayofweek (d : date) : Z :=
  let y := if month d <? 3 then year d - 1 else year d in
  let s := (y + y / 4 - y / 100 + y / 400 + sakamoto (month d) + day d) mod 7 in
  (s + 6) mod 7.

Definition day_name (d : date) : string :=
  nth (Z.to_nat (dayofweek d))
    ["Monday"; "Tuesday"; "Wednesday"; "Thursday"; "Friday"; "Saturday"; "Sunday"]
    "".

(** The day after [d]. *)
Definition next_day (d : date) : date :=
  if day d <? days_in_month (year d) (month d)
  then Date (year d) (month d) (day d + 1)
  else if month d <? 12 then Date (year d) (month d + 1) 1
  else Date (year d + 1) 1 1.

(** The season of a month, in the words of the specification: March to May
    Spring, June to August Summer, September to November Fall, December to
    February Winter. *)
Definition season_of_month (m : Z) : string :=
  if (3 <=? m) && (m <=? 5) then "Spring"
  else if (6 <=? m) && (m <=? 8) then "Summer"
  else if (9 <=? m) && (m <=? 11) then "Fall"
  else "Winter".

End Calendar.

Import Calendar.

(** ** Exceptions *)

Inductive exn :=
  | KeyError (key : string)
  | AttributeError
  | MergeError
  | ValueError.

Inductive result (A : Type) :=
  | Ok (a : A)
  | Raise (e : exn).
Arguments Ok {A} a.
Arguments Raise {A} e.

Global Instance result_ret : MRet result := λ A a, Ok a.
Global Instance result_bind : MBind result := λ A B f r,
  match r with Ok a => f a | Raise e => Raise e end.

(** An attribute looked up on what [DataFrame.get] returned: on [None] it
    raises [AttributeError]. *)
Definition attr {A} (o : option A) : result A :=
  match o with Some a => Ok a | None => Raise AttributeError end.

Definition require (b : bool) (e : exn) : result unit :=
  if b then Ok () else Raise e.

Section Pipeline.

(** ** Cells, columns, tables *)

(** The library's floating-point numbers. *)
Variable float : Type.

(** The three markers pandas counts as missing. *)
Inductive na := PyNone | NaN | NaT.

(** A cell: missing, text, an integer, a float, a timestamp (a date and the
    nanoseconds into that day) or a nested document. *)
Inductive value :=
  | NA (k : na)
  | Str (s : pystr)
  | Int (z : Z)
  | Float (x : float)
  | Ts (d : date) (t : Z)
  | Dict (kv : list (pystr * value)).

Abbreviation Series := (list value).

Record DataFrame := { nrows : nat; columns : gmap string (list value) }.

(** What the libraries do where no statement of the pipeline looks:
    - [str_to_float]: the text-to-number conversion of [pd.to_numeric],
      [None] for text that is no number;
    - [float_rsub y x]: the float [y - x];
    - [current_year]: [datetime.now().year];
    - [in_bounds]: the dates a [Timestamp] can hold;
    - [isdecimal]: the class [\d];
    - [py_str]: [str(v)] for a cell that is neither text nor missing;
    - [to_datetime_infer]: [pd.to_datetime(column, errors="coerce")] with no
      format given;
    - [str_accessor_ok]: whether a column has the [.str] accessor (a check
      on the column's dtype);
    - [merge_keys_ok]: the dtype check of [merge] on its two key columns;
    - [key_eqb_other]: whether two join keys match when they are not both
      text or both missing. *)
Variable str_to_float : pystr → option float.
Variable float_rsub : Z → float → float.
Variable current_year : Z.
Variable in_bounds : date → bool.
Variable isdecimal : N → bool.
Variable py_str : value → pystr.
Variable to_datetime_infer : list value → list value.
Variable str_accessor_ok : list value → bool.
Variable merge_keys_ok : list value → list value → bool.
Variable key_eqb_other : value → value → bool.

Definition isna (v : value) : bool :=
  match v with NA _ => true | _ => false end.

Definition notna (v : value) : bool := negb (isna v).

(** [df.get(c)]: the column, or [None]. *)
Definition get (df : DataFrame) (c : string) : option Series :=
  columns df !! c.

(** [df[c]]: the column, or [KeyError]. *)
Definition getitem (df : DataFrame) (c : string) : result Series :=
  match columns df !! c with Some s => Ok s | None => Raise (KeyError c) end.

(** [df[c] = s] *)
Definition setitem (df : DataFrame) (c : string) (s : Series) : DataFrame :=
  {| nrows := nrows df; columns := <[c := s]> (columns df) |}.

(** [df[c] = v] for a scalar [v] *)
Definition setitem_scalar (df : DataFrame) (c : string) (v : value) : DataFrame :=
  setitem df c (replicate (nrows df) v).

(** [df.drop(columns=cs, inplace=True)] *)
Definition drop (df : DataFrame) (cs : list string) : DataFrame :=
  {| nrows := nrows df; columns := foldr delete (columns df) cs |}.

(** [c in df.columns] *)
Definition has_column (df : DataFrame) (c : string) : bool :=
  bool_decide (is_Some (columns df !! c)).

(** Every column has one cell per row. *)
Definition wf (df : DataFrame) : Prop :=
  ∀ c s, columns df !! c = Some s → length s = nrows df.

(** ** Cell-level library calls *)

Fixpoint dict_get (kv : list (pystr * value)) (key : pystr) : option value :=
  match kv with
  | [] => None
  | (k, v) :: kv' => if decide (k = key) then Some v else dict_get kv' key
  end.

Definition get_raw (x : value) (key : string) : value :=
  match x with
  | Dict kv => default (NA PyNone) (dict_get kv (py key))
  | _ => NA PyNone
  end.

Definition date_of_Z (z : Z) : date :=
  Date (z / 10000) (z / 100 mod 100) (z mod 100).

Definition timestamp_of (d : date) : value :=
  if valid_date d && in_bounds d then Ts d 0 else NA NaT.

(** [pd.to_datetime(_, format="%Y%m%d", errors="coerce")] on one cell: text
    and integers are read in the format, a timestamp is kept, anything else
    is [NaT]. *)
Definition to_datetime_Ymd (v : value) : value :=
  match v with
  | Str s =>
      match strptime_Ymd s with
      | Some d => timestamp_of d
      | None => NA NaT
      end
  | Int z =>
      if (10000000 <=? z) && (z <=? 99999999) then timestamp_of (date_of_Z z)
      else NA NaT
  | Ts d t => Ts d t
  | _ => NA NaT
  end.

(** [.str.extract(r"\[(.*?)\]").iloc[:, 0]] on one cell *)
Definition str_extract_bracketed (v : value) : value :=
  match v with
  | Str s =>
      match extract_bracketed s with
      | Some x => Str x
      | None => NA NaN
      end
  | _ => NA NaN
  end.

(** [.str.replace(r"\[.*?\]\s*", "", regex=True)] on one cell *)
Definition str_remove_bracketed (v : value) : value :=
  match v with
  | Str s => Str (remove_bracketed s)
  | _ => NA NaN
  end.

(** [.str.replace(r"\(.*?\)", "", regex=True)] on one cell *)
Definition str_remove_parenthesized (v : value) : value :=
  match v with
  | Str s => Str (remove_parenthesized s)
  | _ => NA NaN
  end.

(** [.str.extract(r"(\d{4})")[0]] on one cell *)
Definition str_extract_year (v : value) : value :=
  match v with
  | Str s =>
      match search_digits4 isdecimal s with
      | Some x => Str x
      | None => NA NaN
      end
  | _ => NA NaN
  end.

(** [Series.map(table)] on one cell, for a table with text keys *)
Definition map_dict (table : list (pystr * value)) (v : value) : value :=
  match v with
  | Str s => default (NA NaN) (dict_get table s)
  | _ => NA NaN
  end.

Definition sex_codes : list (pystr * value) :=
  [(py "M", Str (py "Male")); (py "F", Str (py "Female")); (py "Q", Str (py "Unknown"))].

Definition neuter_codes : list (pystr * value) :=
  [(py "Y", Int 1); (py "N", Int 0); (py "U", NA NaN)].

(** [str(v)] for a missing marker *)
Definition na_str (k : na) : pystr :=
  match k with
  | PyNone => py "None"
  | NaN => py "nan"
  | NaT => py "NaT"
  end.

(** [.astype(str)] on one cell *)
Definition astype_str (v : value) : value :=
  match v with
  | Str s => Str s
  | NA k => Str (na_str k)
  | _ => Str (py_str v)
  end.

(** [.replace({"": np.nan})] on one cell *)
Definition replace_empty (v : value) : value :=
  match v with
  | Str [] => NA NaN
  | _ => v
  end.

(** [pd.to_numeric(_, errors="coerce")] on one cell *)
Definition to_numeric (v : value) : value :=
  match v with
  | Str s =>
      match str_to_float s with
      | Some x => Float x
      | None => NA NaN
      end
  | Int z => Int z
  | Float x => Float x
  | _ => NA NaN
  end.

(** [current_year - _] on one numeric cell *)
Definition year_minus (v : value) : value :=
  match v with
  | Int z => Int (current_year - z)
  | Float x => Float (float_rsub current_year x)
  | _ => NA NaN
  end.

(** [.dt.month] and [.dt.day_name()] on one cell of a datetime column *)
Definition dt_month (v : value) : value :=
  match v with
  | Ts d _ => Int (month d)
  | _ => NA NaN
  end.

Definition dt_day_name (v : value) : value :=
  match v with
  | Ts d _ => Str (py (day_name d))
  | _ => NA NaN
  end.

(** [s.fillna(other)], [s.where(cond, other)] and [s.notna()] for columns
    of one table *)
Definition fillna (s other : Series) : Series :=
  zip_with (λ a b, if isna a then b else a) s other.

Definition where_ (s : Series) (cond : list bool) (other : Series) : Series :=
  zip_with (λ (ab : value * bool) o, if ab.2 then ab.1 else o) (zip s cond) other.

(** ** Field Normalizer: abandonment events *)

Definition split_sido_sigungu (val : value) : value * value :=
  match val with
  | Str s =>
      match split s with
      | p0 :: p1 :: _ => (Str p0, Str p1)
      | [p0] => (Str p0, NA PyNone)
      | [] => (NA PyNone, NA PyNone)
      end
  | _ => (NA PyNone, NA PyNone)
  end.

Definition get_season (m : value) : value :=
  match m with
  | Int m =>
      if (m =? 3) || (m =? 4) || (m =? 5) then Str (py "Spring")
      else if (m =? 6) || (m =? 7) || (m =? 8) then Str (py "Summer")
      else if (m =? 9) || (m =? 10) || (m =? 11) then Str (py "Fall")
      else Str (py "Winter")
  | _ => NA NaN
  end.

(** The weight of one record from its raw payload (steps 4 of
    [clean_abandonments], cell by cell). *)
Definition clean_weight (weight_raw : value) : value :=
  to_numeric (replace_empty (str_remove_parenthesized (astype_str weight_raw))).

(** The body of [clean_abandonments], on the copy the function makes of its
    argument: every assignment [ab[c] = ...] gives the next state of that
    copy.  [ab["raw"]] is read once here; the source reads it again at each
    use, and no assignment in between touches it. *)
Definition clean_abandonments (ab : DataFrame) : result DataFrame :=
  (* 1) dates; [pd.to_datetime(None)] is [None] *)
  let happenDt := get ab "happenDt" in
  let ab := match happenDt with
            | Some s => setitem ab "happenDt" (to_datetime_Ymd <$> s)
            | None => setitem_scalar ab "happenDt" (NA PyNone)
            end in
  raw ← getitem ab "raw";
  let ab := setitem ab "noticeSdt"
              (to_datetime_Ymd <$> ((λ x, get_raw x "noticeSdt") <$> raw)) in
  let ab := setitem ab "noticeEdt"
              (to_datetime_Ymd <$> ((λ x, get_raw x "noticeEdt") <$> raw)) in
  let ab := setitem ab "updateDt"
              (to_datetime_infer ((λ x, get_raw x "updTm") <$> raw)) in
  (* 2) species / breed *)
  let kind_full := (λ x, get_raw x "kindFullNm") <$> raw in
  _ ← require (str_accessor_ok kind_full) AttributeError;
  let ab := setitem ab "species" (str_extract_bracketed <$> kind_full) in
  let ab := setitem ab "breed" (str_remove_bracketed <$> kind_full) in
  (* 3) sex / neuter *)
  sexCd ← attr (get ab "sexCd");
  let ab := setitem ab "sex" (map_dict sex_codes <$> sexCd) in
  neuterYn ← attr (get ab "neuterYn");
  let ab := setitem ab "neuter" (map_dict neuter_codes <$> neuterYn) in
  (* 4) weight *)
  let weight_raw := (λ x, get_raw x "weight") <$> raw in
  let ab := setitem ab "weight"
              (replace_empty <$> (str_remove_parenthesized <$> (astype_str <$> weight_raw))) in
  weight ← getitem ab "weight";
  let ab := setitem ab "weight" (to_numeric <$> weight) in
  (* 5) birth year / age *)
  let ab := match get ab "ageRaw" with
            | Some ageRaw =>
                let birth_year := str_extract_year <$> (astype_str <$> ageRaw) in
                setitem ab "birthYear" (to_numeric <$> birth_year)
            | None => setitem_scalar ab "birthYear" (NA NaN)
            end in
  birthYear ← getitem ab "birthYear";
  let ab := setitem ab "age" (year_minus <$> birthYear) in
  (* 6) region; [apply] on a column of no rows gives an empty Series, which
     has no label "_sido_tmp" *)
  sigungu ← attr (get ab "sigungu");
  _ ← require (negb (bool_decide (sigungu = []))) (KeyError "_sido_tmp");
  let tmp := split_sido_sigungu <$> sigungu in
  let ab := setitem ab "_sido_tmp" (fst <$> tmp) in
  let ab := setitem ab "_sigungu_tmp" (snd <$> tmp) in
  sido_tmp ← getitem ab "_sido_tmp";
  let ab := match get ab "sido" with
            | None => setitem ab "sido" sido_tmp
            | Some sido => setitem ab "sido" (fillna sido sido_tmp)
            end in
  sigungu_tmp ← getitem ab "_sigungu_tmp";
  sigungu ← attr (get ab "sigungu");
  let ab := setitem ab "sigungu" (where_ sigungu_tmp (notna <$> sigungu_tmp) sigungu) in
  let ab := drop ab ["_sido_tmp"; "_sigungu_tmp"] in
  (* 7) month / weekday / season; a column of [None] has no [.dt] *)
  happenDt' ← getitem ab "happenDt";
  _ ← require (bool_decide (is_Some happenDt)) AttributeError;
  let ab := setitem ab "month" (dt_month <$> happenDt') in
  let ab := setitem ab "weekday" (dt_day_name <$> happenDt') in
  month ← getitem ab "month";
  let ab := setitem ab "season" (get_season <$> month) in
  Ok ab.

(** The numbered parts of [clean_abandonments], each as a function of the
    table it finds, and the function as their sequence
    ([clean_abandonments_parts_eq] below). *)
Definition part_happenDt (ab : DataFrame) : DataFrame :=
  match get ab "happenDt" with
  | Some s => setitem ab "happenDt" (to_datetime_Ymd <$> s)
  | None => setitem_scalar ab "happenDt" (NA PyNone)
  end.

Definition part_dates (raw : Series) (ab : DataFrame) : DataFrame :=
  let ab := setitem ab "noticeSdt"
              (to_datetime_Ymd <$> ((λ x, get_raw x "noticeSdt") <$> raw)) in
  let ab := setitem ab "noticeEdt"
              (to_datetime_Ymd <$> ((λ x, get_raw x "noticeEdt") <$> raw)) in
  setitem ab "updateDt" (to_datetime_infer ((λ x, get_raw x "updTm") <$> raw)).

Definition part_species (raw : Series) (ab : DataFrame) : DataFrame :=
  let kind_full := (λ x, get_raw x "kindFullNm") <$> raw in
  let ab := setitem ab "species" (str_extract_bracketed <$> kind_full) in
  setitem ab "breed" (str_remove_bracketed <$> kind_full).

Definition part_sex (ab : DataFrame) : result DataFrame :=
  sexCd ← attr (get ab "sexCd");
  let ab := setitem ab "sex" (map_dict sex_codes <$> sexCd) in
  neuterYn ← attr (get ab "neuterYn");
  Ok (setitem ab "neuter" (map_dict neuter_codes <$> neuterYn)).

Definition part_weight (raw : Series) (ab : DataFrame) : result DataFrame :=
  let weight_raw := (λ x, get_raw x "weight") <$> raw in
  let ab := setitem ab "weight"
              (replace_empty <$> (str_remove_parenthesized <$> (astype_str <$> weight_raw))) in
  weight ← getitem ab "weight";
  Ok (setitem ab "weight" (to_numeric <$> weight)).

Definition part_age (ab : DataFrame) : result DataFrame :=
  let ab := match get ab "ageRaw" with
            | Some ageRaw =>
                let birth_year := str_extract_year <$> (astype_str <$> ageRaw) in
                setitem ab "birthYear" (to_numeric <$> birth_year)
            | None => setitem_scalar ab "birthYear" (NA NaN)
            end in
  birthYear ← getitem ab "birthYear";
  Ok (setitem ab "age" (year_minus <$> birthYear)).

Definition part_region (ab : DataFrame) : result DataFrame :=
  sigungu ← attr (get ab "sigungu");
  _ ← require (negb (bool_decide (sigungu = []))) (KeyError "_sido_tmp");
  let tmp := split_sido_sigungu <$> sigungu in
  let ab := setitem ab "_sido_tmp" (fst <$> tmp) in
  let ab := setitem ab "_sigungu_tmp" (snd <$> tmp) in
  sido_tmp ← getitem ab "_sido_tmp";
  let ab := match get ab "sido" with
            | None => setitem ab "sido" sido_tmp
            | Some sido => setitem ab "sido" (fillna sido sido_tmp)
            end in
  sigungu_tmp ← getitem ab "_sigungu_tmp";
  sigungu ← attr (get ab "sigungu");
  let ab := setitem ab "sigungu" (where_ sigungu_tmp (notna <$> sigungu_tmp) sigungu) in
  Ok (drop ab ["_sido_tmp"; "_sigungu_tmp"]).

Definition part_calendar (happenDt : option Series) (ab : DataFrame) : result DataFrame :=
  happenDt' ← getitem ab "happenDt";
  _ ← require (bool_decide (is_Some happenDt)) AttributeError;
  let ab := setitem ab "month" (dt_month <$> happenDt') in
  let ab := setitem ab "weekday" (dt_day_name <$> happenDt') in
  month ← getitem ab "month";
  Ok (setitem ab "season" (get_season <$> month)).

Definition clean_abandonments_parts (ab : DataFrame) : result DataFrame :=
  let happenDt := get ab "happenDt" in
  let ab := part_happenDt ab in
  raw ← getitem ab "raw";
  let ab := part_dates raw ab in
  _ ← require (str_accessor_ok ((λ x, get_raw x "kindFullNm") <$> raw)) AttributeError;
  let ab := part_species raw ab in
  ab ← part_sex ab;
  ab ← part_weight raw ab;
  ab ← part_age ab;
  ab ← part_region ab;
  part_calendar happenDt ab.

(** The table [clean_abandonments] returns when it returns, from the columns
    it reads ([clean_abandonments_Ok] below). *)
Definition birthYear_of (ab : DataFrame) : Series :=
  match get ab "ageRaw" with
  | Some ageRaw => to_numeric <$> (str_extract_year <$> (astype_str <$> ageRaw))
  | None => replicate (nrows ab) (NA NaN)
  end.

Definition sido_of (ab : DataFrame) (sigungu : Series) : Series :=
  match get ab "sido" with
  | None => fst <$> (split_sido_sigungu <$> sigungu)
  | Some sido => fillna sido (fst <$> (split_sido_sigungu <$> sigungu))
  end.

Definition sigungu_of (sigungu : Series) : Series :=
  let sigungu_tmp := snd <$> (split_sido_sigungu <$> sigungu) in
  where_ sigungu_tmp (notna <$> sigungu_tmp) sigungu.

Definition cleaned (ab : DataFrame) (happenDt raw sexCd neuterYn sigungu : Series)
    : DataFrame :=
  let ab0 := ab in
  let ab := setitem ab "happenDt" (to_datetime_Ymd <$> happenDt) in
  let ab := part_dates raw ab in
  let ab := part_species raw ab in
  let ab := setitem ab "sex" (map_dict sex_codes <$> sexCd) in
  let ab := setitem ab "neuter" (map_dict neuter_codes <$> neuterYn) in
  let ab := setitem ab "weight" (clean_weight <$> ((λ x, get_raw x "weight") <$> raw)) in
  let ab := setitem ab "birthYear" (birthYear_of ab0) in
  let ab := setitem ab "age" (year_minus <$> birthYear_of ab0) in
  let tmp := split_sido_sigungu <$> sigungu in
  let ab := setitem ab "_sido_tmp" (fst <$> tmp) in
  let ab := setitem ab "_sigungu_tmp" (snd <$> tmp) in
  let ab := setitem ab "sido" (sido_of ab0 sigungu) in
  let ab := setitem ab "sigungu" (sigungu_of sigungu) in
  let ab := drop ab ["_sido_tmp"; "_sigungu_tmp"] in
  let ab := setitem ab "month" (dt_month <$> (to_datetime_Ymd <$> happenDt)) in
  let ab := setitem ab "weekday" (dt_day_name <$> (to_datetime_Ymd <$> happenDt)) in
  setitem ab "season" (get_season <$> (dt_month <$> (to_datetime_Ymd <$> happenDt))).

(** ** Field Normalizer: registrations *)

(** [if c not in df.columns: df[c] = df["raw"].apply(lambda x: get_raw(x, key))] *)
Definition backfill (df : DataFrame) (c key : string) : result DataFrame :=
  if has_column df c then Ok df
  else raw ← getitem df "raw";
       Ok (setitem df c ((λ x, get_raw x key) <$> raw)).

Definition clean_registrations (reg : DataFrame) : result DataFrame :=
  reg ← backfill reg "sido" "CTPV";
  reg ← backfill reg "sigungu" "SGG";
  reg ← match get reg "birthYear" with
        | Some birthYear => Ok (setitem reg "birthYear" (to_numeric <$> birthYear))
        | None =>
            raw ← getitem reg "raw";
            Ok (setitem reg "birthYear"
                  (to_numeric <$> ((λ x, get_raw x "BRDT") <$> raw)))
        end;
  reg ← backfill reg "rfidType" "RFID_SE";
  reg ← backfill reg "kind" "LVSTCK_KND";
  reg ← backfill reg "species" "SPCS";
  reg ← match get reg "count" with
        | None =>
            raw ← getitem reg "raw";
            Ok (setitem reg "count"
                  (to_numeric <$> ((λ x, get_raw x "CNT") <$> raw)))
        | Some count => Ok (setitem reg "count" (to_numeric <$> count))
        end;
  Ok reg.

(** ** Field Normalizer: shelters *)

Definition split_addr (val : value) : value * value :=
  match val with
  | Str s =>
      match split s with
      | p0 :: p1 :: _ => (Str p0, Str p1)
      | [p0] => (Str p0, NA PyNone)
      | [] => (NA PyNone, NA PyNone)
      end
  | _ => (NA PyNone, NA PyNone)
  end.

Definition clean_shelters (sh : DataFrame) : result DataFrame :=
  careAddr ← attr (get sh "careAddr");
  let sh := setitem sh "careAddr" (astype_str <$> careAddr) in
  careAddr ← getitem sh "careAddr";
  (* [apply] on a column of no rows gives an empty Series, with no label "sido" *)
  _ ← require (negb (bool_decide (careAddr = []))) (KeyError "sido");
  let addr_split := split_addr <$> careAddr in
  let sh := setitem sh "sido" (fst <$> addr_split) in
  let sh := setitem sh "sigungu" (snd <$> addr_split) in
  sh ← backfill sh "lat" "lat";
  sh ← backfill sh "lng" "lng";
  sh ← match get sh "openDate" with
       | Some openDate => Ok (setitem sh "openDate" (to_datetime_infer openDate))
       | None =>
           raw ← getitem sh "raw";
           Ok (setitem sh "openDate"
                 (to_datetime_infer ((λ x, get_raw x "dsignationDate") <$> raw)))
       end;
  Ok sh.

(** The values a backfilled column takes: the canonical column [c] when the
    table has it, else the raw payloads' values under [key]; [None] when the
    table has neither [c] nor [raw]. *)
Definition column_or_raw (df : DataFrame) (c key : string) : option Series :=
  match get df c with
  | Some s => Some s
  | None =>
      match get df "raw" with
      | Some raw => Some ((λ x, get_raw x key) <$> raw)
      | None => None
      end
  end.

(** Reading [df["raw"]] for a column the table lacks: [KeyError] when the
    table has no [raw] column either. *)
Definition need_raw {A} (o : option A) : result A :=
  match o with
  | Some a => Ok a
  | None => Raise (KeyError "raw")
  end.

(** ** Joiner *)

(** [df[[c1, ..., cn]]]: the listed columns, in that order. *)
Fixpoint select (df : DataFrame) (cs : list string) : result (list (string * Series)) :=
  match cs with
  | [] => Ok []
  | c :: cs' =>
      s ← getitem df c;
      rest ← select df cs';
      Ok ((c, s) :: rest)
  end.

(** Whether two join keys match: text by equality. *)
Definition key_match (a b : value) : bool :=
  match a, b with
  | Str s, Str t => bool_decide (s = t)
  | _, _ => key_eqb_other a b
  end.

(** The rows of the right key column that match [k], in order. *)
Definition matches (k : value) (rk : Series) : list nat :=
  fst <$> filter (λ p, key_match k p.2 = true) (imap pair rk).

(** The rows of a left join: each left row, in order, once per matching
    right row, or once with no right row. *)
Definition rows_of (rk : Series) (i : nat) (k : value) : list (nat * option nat) :=
  match matches k rk with
  | [] => [(i, None)]
  | js => (λ j, (i, Some j)) <$> js
  end.

Definition join_rows (lk rk : Series) : list (nat * option nat) :=
  mjoin (imap (rows_of rk) lk).

Definition take_left (ps : list (nat * option nat)) (s : Series) : Series :=
  (λ p, default (NA NaN) (s !! p.1)) <$> ps.

Definition take_right (ps : list (nat * option nat)) (s : Series) : Series :=
  (λ p, default (NA NaN) (p.2 ≫= λ j, s !! j)) <$> ps.

(** [left.merge(right, on=on, how="left", suffixes=("", rsuffix))].  The
    result is a list of labelled columns: the left columns under their own
    labels, then the right columns other than the key, a label the left
    table also has extended by [rsuffix].  Labels are checked for repeats
    within each side only, as the library does. *)
Definition merge_left (left : DataFrame) (right : list (string * Series))
    (on rsuffix : string) : result (list (string * Series)) :=
  lk ← getitem left on;
  rk ← match list_find (λ p, p.1 = on) right with
       | Some (_, (_, s)) => Ok s
       | None => Raise (KeyError on)
       end;
  _ ← require (merge_keys_ok lk rk) ValueError;
  let ps := join_rows lk rk in
  let rlabel c := if has_column left c then c +:+ rsuffix else c in
  let rcols := filter (λ p, p.1 ≠ on) right in
  _ ← require (bool_decide (NoDup (rlabel <$> rcols.*1))) MergeError;
  Ok (map_to_list (take_left ps <$> columns left)
      ++ ((λ p, (rlabel p.1, take_right ps p.2)) <$> rcols)).

Definition shelter_columns : list string :=
  ["careNm"; "lat"; "lng"; "careAddr"; "divisionNm"; "sido"; "sigungu"].

Definition merge_abandonments_with_shelters (ab sh : DataFrame)
    : result (list (string * Series)) :=
  right ← select sh shelter_columns;
  merge_left ab right "careNm" "_shelter".

(** ** The pipeline *)

(** The tables [main] writes to the three files, from the tables
    [load_data] returns: the three cleanings in order, then the join of the
    cleaned events with the cleaned shelters. *)
Definition main_tables (ab reg sh : DataFrame)
    : result (list (string * Series) * DataFrame * DataFrame) :=
  ab_clean ← clean_abandonments ab;
  reg_clean ← clean_registrations reg;
  sh_clean ← clean_shelters sh;
  ab_merged ← merge_abandonments_with_shelters ab_clean sh_clean;
  Ok (ab_merged, reg_clean, sh_clean).

(** ** Analyzer *)

(** What a routine prints: a line of text (the literal of the source, its
    leading line break left out), or a table the library computes ([what]
    names the computation, [data] are the columns it reads). *)
Inductive output :=
  | Line (s : string)
  | Table (what : string) (data : list Series).

(** A routine's transcript so far and how it ended. *)
Definition report (A : Type) : Type := list output * result A.

Definition print (o : output) : report unit := ([o], Ok ()).

Definition col (df : DataFrame) (c : string) : report Series :=
  ([], getitem df c).

Definition report_bind {A B} (m : report A) (k : A → report B) : report B :=
  match m.2 with
  | Ok a => (m.1 ++ (k a).1, (k a).2)
  | Raise e => (m.1, Raise e)
  end.

Notation "x ←r m ; k" := (report_bind m (λ x, k))
  (at level 20, m at level 100, k at level 200, right associativity,
   format "x  ←r  m ;  '/' k").
Notation "m ;r k" := (report_bind m (λ _, k))
  (at level 100, k at level 200, right associativity).

(** The columns an expression reads, in the order it reads them. *)
Fixpoint cols (df : DataFrame) (cs : list string) : report (list Series) :=
  match cs with
  | [] => ([], Ok [])
  | c :: cs' => s ←r col df c; ss ←r cols df cs'; ([], Ok (s :: ss))
  end.

Definition print_table (df : DataFrame) (what : string) (cs : list string) : report unit :=
  data ←r cols df cs; print (Table what data).

Definition analyze_basic_patterns (ab : DataFrame) : report unit :=
  print (Line "===== [4-1] 처리결과 분포 (processState 비율) =====") ;r
  print_table ab "value_counts(normalize=True).round(4)" ["processState"] ;r
  print (Line "===== [4-1] 종(species) 분포 =====") ;r
  print_table ab "value_counts().head(10)" ["species"] ;r
  print (Line "===== [4-1] 성별(sex) 분포 =====") ;r
  print_table ab "value_counts(dropna=False)" ["sex"] ;r
  print (Line "===== [4-1] 중성화(neuter) 여부 분포 =====") ;r
  print_table ab "value_counts(dropna=False)" ["neuter"] ;r
  print (Line "===== [4-1] 연령(age) 기초 통계 =====") ;r
  print_table ab "describe()" ["age"].

Definition year_notice : output := Line " - year 컬럼이 없어 연도별 분석은 생략합니다.".

Definition analyze_time_series (ab : DataFrame) : report unit :=
  print (Line "===== [4-3] 시계열 분석 (Time Series) =====") ;r
  (if has_column ab "year" then
     yearly ←r cols ab ["year"; "uid"];
     print (Line "[연도별 유기동물 발생 건수]") ;r
     print (Table "groupby(year)[uid].count()" yearly) ;r
     year_state ←r cols ab ["year"; "processState"; "uid"];
     print (Line "[연도 × 처리결과 발생 건수]") ;r
     print (Table "groupby([year, processState])[uid].count().head(20)" year_state)
   else print year_notice) ;r
  monthly ←r cols ab ["month"; "uid"];
  print (Line "[월별 유기동물 발생 건수]") ;r
  print (Table "groupby(month)[uid].count()" monthly) ;r
  month_state ←r cols ab ["month"; "processState"; "uid"];
  print (Line "[월별 × 처리결과 발생 건수]") ;r
  print (Table "groupby([month, processState])[uid].count().head(20)" month_state).

Definition analyze_spatial (ab : DataFrame) : report unit :=
  print (Line "===== [4-4] 지역 기반 분석 (Spatial Analysis) =====") ;r
  print (Line "[시도별 유기동물 발생 건수 TOP 10]") ;r
  sido_cnt ←r cols ab ["sido"; "uid"];
  print (Table "groupby(sido)[uid].count().sort_values(ascending=False).head(10)" sido_cnt) ;r
  print (Line "[시군구별 유기동물 발생 건수 TOP 20]") ;r
  sigungu_cnt ←r cols ab ["sigungu"; "uid"];
  print (Table "groupby(sigungu)[uid].count().sort_values(ascending=False).head(20)" sigungu_cnt) ;r
  print (Line "[시도 × 처리결과 교차표]") ;r
  crosstab_sido_state ←r cols ab ["sido"; "processState"];
  print (Table "crosstab.head(10)" crosstab_sido_state).

Definition corr_notice : output := Line " - 상관계수 계산 가능한 수치형 컬럼이 없습니다.".

Definition analyze_correlations (ab : DataFrame) : report unit :=
  print (Line "===== [4-5] 다변수 상관관계 분석 =====") ;r
  let num_cols := ["age"; "weight"; "month"] in
  let available := filter (λ c, has_column ab c = true) num_cols in
  (if bool_decide (available ≠ []) then
     print (Line "[수치형 변수 상관계수]") ;r
     print_table ab "corr().round(3)" available
   else print corr_notice) ;r
  print (Line "[성별(sex) × 처리결과(processState) 교차표]") ;r
  print_table ab "crosstab" ["sex"; "processState"] ;r
  print (Line "[중성화(neuter) × 처리결과(processState) 교차표]") ;r
  print_table ab "crosstab" ["neuter"; "processState"] ;r
  print (Line "[종(species) × 계절(season) 교차표]") ;r
  print_table ab "crosstab" ["species"; "season"].

(** ** Tables as objects *)

(** The caller and the cleaning functions hold references to DataFrame
    objects in a store.  [ab = ab.copy()] allocates a new object with the
    same columns and rebinds the local name to it; every later assignment
    [ab[c] = ...] and the [drop(..., inplace=True)] go through that name.
    (The copy shares the nested documents of the [raw] column with the
    original; no statement assigns into a document.  When the body raises,
    the half-assigned copy is left behind with no reference to it; the store
    keeps it as it was copied.) *)
Definition store := gmap nat DataFrame.

Definition df_copy (l : nat) (h : gmap nat DataFrame) : result (nat * gmap nat DataFrame) :=
  match h !! l with
  | Some df => let l' := fresh (dom h) in Ok (l', <[l' := df]> h)
  | None => Raise AttributeError
  end.

(** A cleaning function called on the reference [l]: the copy, then the body
    on the copy, a state passed from assignment to assignment and stored
    back under the copy's reference.  Returns the store after the call and
    the reference returned (or the exception). *)
Definition call_clean (body : DataFrame → result DataFrame) (l : nat)
    (h : gmap nat DataFrame) : gmap nat DataFrame * result nat :=
  match df_copy l h with
  | Ok (l', h') =>
      match h' !! l' with
      | Some df =>
          match body df with
          | Ok df' => (<[l' := df']> h', Ok l')
          | Raise e => (h', Raise e)
          end
      | None => (h', Raise AttributeError)
      end
  | Raise e => (h, Raise e)
  end.

Definition call_clean_abandonments := call_clean clean_abandonments.
Definition call_clean_registrations := call_clean clean_registrations.
Definition call_clean_shelters := call_clean clean_shelters.

End Pipeline.

Arguments NA {float} k.
Arguments Str {float} s.
Arguments Int {float} z.
Arguments Float {float} x.
Arguments Ts {float} d t.
Arguments Dict {float} kv.
Arguments nrows {float} d.
Arguments columns {float} d.
Arguments isna {float} v.
Arguments notna {float} v.
Arguments get {float} df c.
Arguments getitem {float} df c.
Arguments setitem {float} df c s.
Arguments has_column {float} df c.
Arguments wf {float} df.
Arguments dict_get {float} kv key.
Arguments get_raw {float} x key.
Arguments fillna {float} s other.
Arguments where_ {float} s cond other.
Arguments split_sido_sigungu {float} val.
Arguments split_addr {float} val.
Arguments get_season {float} m.
Arguments dt_month {float} v.
Arguments dt_day_name {float} v.
Arguments str_extract_bracketed {float} v.
Arguments str_remove_bracketed {float} v.
Arguments str_remove_parenthesized {float} v.
Arguments replace_empty {float} v.
Arguments sigungu_of {float} sigungu.
Arguments sido_of {float} ab sigungu.
Arguments column_or_raw {float} df c key.
Arguments take_left {float} ps s.
Arguments take_right {float} ps s.
Arguments Line {float} s.
Arguments Table {float} what data.

(** The cell of column [c] in row [i]. *)
Definition cell {float} (df : DataFrame float) (c : string) (i : nat) : option (value float) :=
  columns df !! c ≫= λ s, s !! i.

(** ** Duplicated output *)

(** A text stream as [Tee] uses one: the data written and not yet flushed,
    and the data flushed, oldest first. *)
Record stream := { pending : list string; flushed : list string }.

Definition stream_write (data : string) (s : stream) : stream :=
  {| pending := pending s ++ [data]; flushed := flushed s |}.

Definition stream_flush (s : stream) : stream :=
  {| pending := []; flushed := flushed s ++ pending s |}.

(** A [Tee] keeps references to the stream objects it is made from; [write]
    and [flush] go through them in order. *)
Record Tee := { streams : list nat }.

Definition Tee_write (self : Tee) (data : string) (h : gmap nat stream) : gmap nat stream :=
  foldl (λ h s, alter (stream_write data) s h) h (streams self).

Definition Tee_flush (self : Tee) (h : gmap nat stream) : gmap nat stream :=
  foldl (λ h s, alter stream_flush s h) h (streams self).

(** ** An instance of the library variables, for worked examples

    Numbers are exact decimals [m * 10^e]; the clock stands at 2026;
    timestamps have nanosecond resolution; a format-free date parser that
    recognises nothing. *)

Module Lib.

Definition float : Type := Z * Z.

(** Digits with at most one decimal point: the mantissa and the number of
    digits after the point. *)
Fixpoint decimal_go (s : pystr) (m : Z) (frac : option Z) : option (Z * Z) :=
  match s with
  | [] => Some (m, default 0 frac)
  | c :: s' =>
      if (c =? 46)%N then
        match frac with
        | None => decimal_go s' m (Some 0)
        | Some _ => None
        end
      else
        d ← digit c;
        decimal_go s' (10 * m + d) ((λ k, k - 1) <$> frac)
  end.

Definition str_to_float (s : pystr) : option float :=
  match s with
  | [] | [46%N] => None
  | _ => decimal_go s 0 None
  end.

Definition float_rsub (y : Z) (x : float) : float :=
  (y * 10 ^ (- x.2) - x.1, x.2).

Definition current_year : Z := 2026.

Definition in_bounds (d : date) : bool :=
  let n := 10000 * year d + 100 * month d + day d in
  (16770922 <=? n) && (n <=? 22620411).

Definition isdecimal (c : N) : bool := bool_decide (is_Some (digit c)).

Definition py_str (v : value float) : pystr := py "<object>".

Definition to_datetime_infer (s : list (value float)) : list (value float) :=
  (λ _, NA NaT) <$> s.

Definition str_accessor_ok (s : list (value float)) : bool :=
  forallb (λ v, match v with NA PyNone => true | _ => false end) s
  || existsb (λ v, match v with Str _ | Dict _ => true | _ => false end) s.

Definition merge_keys_ok (lk rk : list (value float)) : bool := true.

Definition key_eqb_other (a b : value float) : bool := isna a && isna b.

Definition clean_weight : value float → value float :=
  clean_weight float str_to_float py_str.

Definition clean_abandonments : DataFrame float → result (DataFrame float) :=
  clean_abandonments float str_to_float float_rsub current_year in_bounds
    isdecimal py_str to_datetime_infer str_accessor_ok.

Definition clean_registrations : DataFrame float → result (DataFrame float) :=
  clean_registrations float str_to_float.

Definition clean_shelters : DataFrame float → result (DataFrame float) :=
  clean_shelters float py_str to_datetime_infer.

Definition merge_abandonments_with_shelters :
    DataFrame float → DataFrame float → result (list (string * list (value float))) :=
  merge_abandonments_with_shelters float merge_keys_ok key_eqb_other.

Definition main_tables : DataFrame float → DataFrame float → DataFrame float →
    result (list (string * list (value float)) * DataFrame float * DataFrame float) :=
  main_tables float str_to_float float_rsub current_year in_bounds isdecimal py_str
    to_datetime_infer str_accessor_ok merge_keys_ok key_eqb_other.

(** A table from its columns. *)
Definition frame (n : nat) (cols : list (string * list (value float))) : DataFrame float :=
  {| nrows := n; columns := list_to_map cols |}.

End Lib.

(** ** Sample tables *)

Module Samples.
Import Lib.

Definition text (s : string) : value float := Str (py s).

(** "[개] 믹스견", "서울특별시 강남구", "2016(년생)" and their parts. *)
Definition gae : pystr := [44060]%N.
Definition mixgyeon : pystr := [48121; 49828; 44204]%N.
Definition seoul : pystr := [49436; 50872; 53945; 48324; 49884]%N.
Definition gangnam_gu : pystr := [44053; 45224; 44396]%N.
Definition kind_full : pystr := [91%N] ++ gae ++ [93; 32]%N ++ mixgyeon.
Definition region : pystr := seoul ++ [32%N] ++ gangnam_gu.
Definition age_raw : pystr := py "2016(" ++ [45380; 49373]%N ++ py ")".

(** The event of the end-to-end scenario. *)
Definition event_raw : value float :=
  Dict [(py "kindFullNm", Str kind_full); (py "weight", text "6.8(Kg)");
        (py "noticeSdt", text "20220616"); (py "noticeEdt", text "20220626")].

Definition event : DataFrame float :=
  frame 1
    [("uid", [text "A1"]);
     ("happenDt", [text "20220615"]);
     ("raw", [event_raw]);
     ("sexCd", [text "F"]);
     ("neuterYn", [text "Y"]);
     ("ageRaw", [Str age_raw]);
     ("sigungu", [Str region]);
     ("careNm", [text "Hope"]);
     ("processState", [text "adopted"])].

Definition cleaned_or (df : DataFrame float) (r : result (DataFrame float)) : DataFrame float :=
  match r with Ok out => out | Raise _ => df end.

Definition event_cleaned : DataFrame float := cleaned_or event (clean_abandonments event).

(** Events whose composite fields carry more than one group. *)
Definition odd_events : DataFrame float :=
  frame 2
    [("happenDt", [text "20230115"; text "2023-01-15"]);
     ("raw", [Dict [(py "kindFullNm", text "[dog] mix [small]");
                    (py "weight", text "(approx)6.8")];
              Dict [(py "kindFullNm", text "mix [small]"); (py "weight", text "")]]);
     ("sexCd", [text "M"; text "X"]);
     ("neuterYn", [text "N"; text "U"]);
     ("sigungu", [text "Busan"; NA NaN]);
     ("sido", [text "Gyeonggi"; NA PyNone])].

Definition odd_events_cleaned : DataFrame float :=
  cleaned_or odd_events (clean_abandonments odd_events).

(** A registration table with nothing but the raw payload. *)
Definition payload : list (pystr * value float) :=
  [(py "CTPV", text "Seoul"); (py "SGG", text "Jongno-gu");
   (py "BRDT", text "2019"); (py "CNT", text "12")].

Definition registration : DataFrame float := frame 1 [("raw", [Dict payload])].

(** Shelters, one without an address (a null in the document), one whose
    document has no address field. *)
Definition shelters : DataFrame float :=
  frame 3
    [("careNm", [text "Hope"; text "Haven"; text "Harbour"]);
     ("careAddr", [text "Seoul Mapo-gu 1"; NA PyNone; NA NaN]);
     ("divisionNm", [text "city"; text "county"; text "city"]);
     ("lat", [text "37.5"; text "35.1"; text "36.0"]);
     ("lng", [text "126.9"; text "129.0"; text "127.0"]);
     ("openDate", [text "2001"; text "2002"; text "2003"])].

Definition shelters_cleaned : DataFrame float :=
  match clean_shelters shelters with Ok out => out | Raise _ => shelters end.

(** A cleaned table as the Analyzer reads it back, without [year] and
    without [month]. *)
Definition no_month : DataFrame float :=
  frame 1
    [("uid", [text "A1"]); ("processState", [text "adopted"]);
     ("species", [Str gae]); ("sex", [text "Female"]); ("neuter", [Int 1]);
     ("age", [Float (10, 0)]); ("sido", [Str seoul]); ("sigungu", [Str gangnam_gu]);
     ("season", [text "Summer"])].

(** The same with [month], still without [year]. *)
Definition no_year : DataFrame float :=
  setitem no_month "month" [Int 6].

Definition merged : list (string * list (value float)) :=
  match merge_abandonments_with_shelters event_cleaned shelters_cleaned with
  | Ok out => out
  | Raise _ => []
  end.

(** A store holding the end-to-end event as object 0. *)
Definition store0 : gmap nat (DataFrame float) := {[ 0%nat := event ]}.

Definition registration_cleaned : DataFrame float :=
  match clean_registrations registration with Ok out => out | Raise _ => registration end.

(** The console and the log file, with something written to them already, a
    third stream, and the [Tee] over the first two. *)
Definition sinks : gmap nat stream :=
  {[ 0%nat := {| pending := ["kept"]; flushed := [] |};
     1%nat := {| pending := []; flushed := ["log"] |};
     2%nat := {| pending := []; flushed := [] |} ]}.

Definition tee : Tee := {| streams := [0%nat; 1%nat] |}.

End Samples.

Import Samples.

Example split_two : split (py " Seoul   Gangnam-gu x") = [py "Seoul"; py "Gangnam-gu"; py "x"].
Proof. reflexivity. Qed.

Example remove_bracketed_ex : remove_bracketed (py "[a]  b [c] d") = py "b d".
Proof. reflexivity. Qed.

Example extract_ex : extract_bracketed (py "x[[a]b]") = Some (py "[a").
Proof. reflexivity. Qed.

Example dow_ex : day_name (Date 2023 1 15) = "Sunday" ∧ day_name (Date 2022 6 15) = "Wednesday"
  ∧ day_name (Date 1970 1 1) = "Thursday" ∧ day_name (Date 2024 2 29) = "Thursday".
Proof. repeat split; reflexivity. Qed.

(** * Properties *)

(** ** Text *)

Section TextFacts.

Context (open close : N).

Lemma until_close_app (x r : pystr) :
  close ∉ x → newline ∉ x → until_close close (x ++ close :: r) = Some (x, r).
Proof.
  induction x as [|c x IH]; intros Hc Hn; simpl.
  - by rewrite N.eqb_refl.
  - apply not_elem_of_cons in Hc as [Hc1 Hc2].
    apply not_elem_of_cons in Hn as [Hn1 Hn2].
    destruct (N.eqb_spec c close) as [->|_]; [done|].
    destruct (N.eqb_spec c newline) as [->|_]; [done|].
    by rewrite IH.
Qed.

Lemma until_close_inv (s x r : pystr) :
  until_close close s = Some (x, r) →
  s = x ++ (close :: r) ∧ (close ∉ x) ∧ (newline ∉ x).
Proof.
  revert x r; induction s as [|c s IH]; intros x r; simpl; [done|].
  destruct (N.eqb_spec c close) as [->|Hc].
  { intros [= <- <-]. split_and!; [done|apply not_elem_of_nil..]. }
  destruct (N.eqb_spec c newline) as [->|Hn]; [done|].
  destruct (until_close close s) as [[x' r']|]; simpl; [|done].
  intros [= <- <-]. destruct (IH _ _ eq_refl) as (-> & ? & ?).
  split_and!; [done|by apply not_elem_of_cons..].
Qed.

Lemma match_group_length (s x r : pystr) :
  match_group open close s = Some (x, r) → (length r < length s)%nat.
Proof.
  destruct s as [|c s]; simpl; [done|].
  destruct (c =? open)%N; [|done].
  intros (-> & _)%until_close_inv. rewrite length_app. simpl. lia.
Qed.

Lemma match_group_has_group (s x r : pystr) :
  match_group open close s = Some (x, r) → has_group open close s.
Proof.
  destruct s as [|c s]; simpl; [done|].
  destruct (N.eqb_spec c open) as [->|]; [|done].
  intros (-> & _ & Hn)%until_close_inv. by exists [], x, r.
Qed.

Lemma has_group_cons (c : N) (s : pystr) :
  has_group open close s → has_group open close (c :: s).
Proof. intros (a & x & b & -> & Hn). by exists (c :: a), x, b. Qed.

Lemma search_group_None (s : pystr) :
  ¬ has_group open close s → search_group open close s = None.
Proof.
  induction s as [|c s IH]; intros Hno; [done|].
  cbn [search_group].
  destruct (match_group open close (c :: s)) as [[x r]|] eqn:E.
  { destruct Hno. by eapply match_group_has_group. }
  apply IH. intros Hg. apply Hno. by apply has_group_cons.
Qed.

Lemma sub_group_go_None (tail : pystr → pystr) (n : nat) (s : pystr) :
  ¬ has_group open close s → sub_group_go open close tail n s = s.
Proof.
  revert s; induction n as [|n IH]; intros s Hno; [done|].
  destruct s as [|c s]; [done|]. cbn [sub_group_go].
  destruct (match_group open close (c :: s)) as [[x r]|] eqn:E.
  { destruct Hno. by eapply match_group_has_group. }
  rewrite IH; [done|]. intros Hg. apply Hno. by apply has_group_cons.
Qed.

(** More characters allowed than there are: the same result. *)
Lemma sub_group_go_enough (tail : pystr → pystr) (n : nat) (s : pystr) :
  (∀ r, length (tail r) ≤ length r)%nat →
  (length s ≤ n)%nat →
  sub_group_go open close tail n s = sub_group open close tail s.
Proof.
  intros Htail. unfold sub_group.
  remember (length s) as k eqn:Hk.
  revert s n Hk. induction (lt_wf k) as [k _ IH]. intros s n -> Hn.
  destruct s as [|c s]; [by destruct n|].
  destruct n as [|n]; [simpl in Hn; lia|].
  cbn [length sub_group_go].
  destruct (match_group open close (c :: s)) as [[x r]|] eqn:E.
  - apply match_group_length in E. simpl in E.
    pose proof (Htail r) as Hr.
    rewrite (IH (length (tail r))) with (n := n) (s := tail r); [|simpl; lia|done|simpl in Hn; lia].
    rewrite (IH (length (tail r))) with (n := length s) (s := tail r); [done|simpl; lia|done|lia].
  - f_equal. simpl in Hn.
    rewrite (IH (length s)) with (n := n) (s := s); [|simpl; lia|done|lia].
    done.
Qed.

Lemma sub_group_None (tail : pystr → pystr) (s : pystr) :
  ¬ has_group open close s → sub_group open close tail s = s.
Proof. apply sub_group_go_None. Qed.

Lemma sub_group_cons_skip (tail : pystr → pystr) (c : N) (s : pystr) :
  (∀ r, length (tail r) ≤ length r)%nat →
  c ≠ open →
  sub_group open close tail (c :: s) = c :: sub_group open close tail s.
Proof.
  intros Htail Hc. unfold sub_group. cbn [length sub_group_go match_group].
  by destruct (N.eqb_spec c open).
Qed.

Lemma sub_group_match (tail : pystr → pystr) (x r : pystr) :
  (∀ r, length (tail r) ≤ length r)%nat →
  close ∉ x → newline ∉ x →
  sub_group open close tail (open :: x ++ close :: r)
  = sub_group open close tail (tail r).
Proof.
  intros Htail Hc Hn. unfold sub_group at 1.
  cbn [length sub_group_go match_group]. rewrite N.eqb_refl.
  rewrite until_close_app by done.
  apply sub_group_go_enough; [done|].
  rewrite length_app. simpl. pose proof (Htail r). lia.
Qed.

Lemma search_group_match (x r : pystr) :
  close ∉ x → newline ∉ x →
  search_group open close (open :: x ++ close :: r) = Some x.
Proof.
  intros Hc Hn. cbn [search_group match_group]. rewrite N.eqb_refl.
  by rewrite until_close_app.
Qed.

End TextFacts.

Lemma has_group_open (open close : N) (s : pystr) : has_group open close s → open ∈ s.
Proof. intros (a & x & b & -> & _). apply elem_of_app. right. by left. Qed.

Lemma lstrip_length (s : pystr) : (length (lstrip s) ≤ length s)%nat.
Proof.
  induction s as [|c s IH]; simpl; [lia|]. destruct (isspace c); simpl; lia.
Qed.

Lemma lstrip_app (ws s : pystr) :
  Forall (λ c, isspace c = true) ws → starts_with_space s = false →
  lstrip (ws ++ s) = s.
Proof.
  intros Hws Hs. induction Hws as [|c ws Hc _ IH]; simpl.
  - destruct s as [|c s]; [done|]. simpl in *. by rewrite Hs.
  - by rewrite Hc.
Qed.

Lemma split_tokens (s t : pystr) :
  t ∈ split s → t ≠ [] ∧ Forall (λ c, isspace c = false) t.
Proof.
  revert t; induction s as [|c s IH]; intros t; simpl; [by intros ?%elem_of_nil|].
  destruct (isspace c) eqn:Ec; [by apply IH|].
  destruct s as [|d s'].
  { intros ->%list_elem_of_singleton. split; [done|]. by repeat constructor. }
  destruct (isspace d) eqn:Ed.
  { intros [->|Hin]%elem_of_cons; [|by apply IH].
    split; [done|]. by repeat constructor. }
  destruct (split (d :: s')) as [|t0 ts] eqn:Es.
  { intros ->%list_elem_of_singleton. split; [done|]. by repeat constructor. }
  intros [->|Hin]%elem_of_cons.
  - split; [done|]. constructor; [done|]. apply IH. by left.
  - apply IH. by right.
Qed.

Lemma split_token (t : pystr) :
  t ≠ [] → Forall (λ c, isspace c = false) t → split t = [t].
Proof.
  induction t as [|c t IH]; [done|]. intros _ Hall.
  apply Forall_cons in Hall as [Hc Hall]. simpl. rewrite Hc.
  destruct t as [|d t']; [done|].
  pose proof Hall as [Hd _]%Forall_cons. rewrite Hd.
  by rewrite IH.
Qed.

(** ** The calendar *)

(** The weekday of the library follows the calendar: the day after has the
    next weekday ([dow_ex] anchors it: 1 January 1970 is a Thursday). *)
Lemma dayofweek_range (d : date) : 0 ≤ dayofweek d < 7.
Proof. unfold dayofweek. apply Z.mod_pos_bound. lia. Qed.

(** Closed table lookups and month tests, evaluated. *)
Ltac eval_closed :=
  repeat match goal with
  | |- context [sakamoto ?k] =>
      let v := eval vm_compute in (sakamoto k) in change (sakamoto k) with v
  | |- context [Z.ltb ?a 3] =>
      let v := eval vm_compute in (Z.ltb a 3) in change (Z.ltb a 3) with v
  | |- context [Z.ltb ?a 12] =>
      let v := eval vm_compute in (Z.ltb a 12) in change (Z.ltb a 12) with v
  end.

Lemma dayofweek_next_day (d : date) :
  valid_date d = true → dayofweek (next_day d) = (dayofweek d + 1) mod 7.
Proof.
  destruct d as [y m dd]. unfold valid_date. cbn [year month day].
  rewrite !andb_true_iff, !Z.leb_le. intros (((((Hy1 & Hy2) & Hm1) & Hm2) & Hd1) & Hd2).
  assert (m = 1 ∨ m = 2 ∨ m = 3 ∨ m = 4 ∨ m = 5 ∨ m = 6 ∨ m = 7 ∨ m = 8 ∨ m = 9
          ∨ m = 10 ∨ m = 11 ∨ m = 12) as Hm by lia.
  unfold next_day, dayofweek. cbn [year month day].
  unfold days_in_month, is_leap in *.
  repeat destruct Hm as [-> | Hm]; try subst m; cbn [Z.eqb Pos.eqb orb andb] in *.
  all: repeat match goal with
       | |- context [Z.eqb ?a 0] => destruct (Z.eqb_spec a 0)
       end; cbn [negb orb andb] in *.
  all: match goal with
       | |- context [Z.ltb ?a ?n] => is_var a; destruct (Z.ltb_spec a n)
       end; cbn [year month day]; eval_closed; cbv iota.
  all: cbn [year month day]; eval_closed; cbv iota; cbn [year month day].
  all: Z.div_mod_to_equations; lia.
Qed.

(** ** Tables *)

Section FrameFacts.

Context {float : Type}.
Implicit Types (df : DataFrame float) (s : list (value float)) (c : string).

Lemma get_setitem_eq df c s : get (setitem df c s) c = Some s.
Proof. apply lookup_insert_eq. Qed.

Lemma get_setitem_ne df c c' s : c ≠ c' → get (setitem df c s) c' = get df c'.
Proof. apply lookup_insert_ne. Qed.

Lemma get_setitem_scalar_eq df c v :
  get (setitem_scalar float df c v) c = Some (replicate (nrows df) v).
Proof. apply lookup_insert_eq. Qed.

Lemma get_setitem_scalar_ne df c c' v :
  c ≠ c' → get (setitem_scalar float df c v) c' = get df c'.
Proof. apply lookup_insert_ne. Qed.

Lemma getitem_get df c :
  getitem df c = match get df c with Some s => Ok s | None => Raise (KeyError c) end.
Proof. done. Qed.

Lemma get_drop_eq1 df c cs : get (drop float df (c :: cs)) c = None.
Proof. apply lookup_delete_eq. Qed.

Lemma get_drop_cons_ne df c c' cs :
  c ≠ c' → get (drop float df (c :: cs)) c' = get (drop float df cs) c'.
Proof. apply lookup_delete_ne. Qed.

Lemma get_drop_nil df c : get (drop float df []) c = get df c.
Proof. done. Qed.

Lemma nrows_setitem df c s : nrows (setitem df c s) = nrows df.
Proof. done. Qed.

Lemma nrows_setitem_scalar df c v : nrows (setitem_scalar float df c v) = nrows df.
Proof. done. Qed.

Lemma nrows_drop df cs : nrows (drop float df cs) = nrows df.
Proof. done. Qed.

Lemma DataFrame_eq df1 df2 :
  nrows df1 = nrows df2 → (∀ c, get df1 c = get df2 c) → df1 = df2.
Proof.
  destruct df1 as [n1 m1], df2 as [n2 m2]; simpl. intros -> H.
  f_equal. by apply map_eq.
Qed.

Lemma has_column_get df c : has_column df c = bool_decide (is_Some (get df c)).
Proof. done. Qed.

Lemma cell_get df c (i : nat) s : get df c = Some s → cell df c i = s !! i.
Proof. unfold cell, get. by intros ->. Qed.

End FrameFacts.

(** Two column names differ: by hypothesis, or by computing on literals. *)
Ltac str_ne :=
  first [ assumption
        | apply not_eq_sym; assumption
        | apply String.eqb_neq; reflexivity ].

Ltac frame_step :=
  first
    [ rewrite get_setitem_eq
    | rewrite get_setitem_scalar_eq
    | rewrite get_drop_eq1
    | rewrite get_drop_nil
    | rewrite get_setitem_ne by str_ne
    | rewrite get_setitem_scalar_ne by str_ne
    | rewrite get_drop_cons_ne by str_ne ].

Ltac frame_simpl := repeat frame_step.


(** ** Field Normalizer *)

Section PipelineFacts.

Context (float : Type).
Context (str_to_float : pystr → option float) (float_rsub : Z → float → float).
Context (current_year : Z) (in_bounds : date → bool) (isdecimal : N → bool).
Context (py_str : value float → pystr).
Context (to_datetime_infer : list (value float) → list (value float)).
Context (str_accessor_ok : list (value float) → bool).

Abbreviation clean_ab := (clean_abandonments float str_to_float float_rsub current_year
  in_bounds isdecimal py_str to_datetime_infer str_accessor_ok).
Abbreviation p_dates := (part_dates float in_bounds to_datetime_infer).
Abbreviation p_species := (part_species float).
Abbreviation p_sex := (part_sex float).
Abbreviation p_weight := (part_weight float str_to_float py_str).
Abbreviation p_age := (part_age float str_to_float float_rsub current_year isdecimal py_str).
Abbreviation p_region := (part_region float).
Abbreviation p_calendar := (part_calendar float).
Abbreviation to_dt := (to_datetime_Ymd float in_bounds).
Abbreviation to_num := (to_numeric float str_to_float).
Abbreviation birth_year := (birthYear_of float str_to_float isdecimal py_str).
Abbreviation cleaned_ab := (cleaned float str_to_float float_rsub current_year
  in_bounds isdecimal py_str to_datetime_infer).

Implicit Types (ab df out : DataFrame float) (s raw : list (value float)) (c : string).

Lemma clean_abandonments_parts_eq ab :
  clean_ab ab
  = clean_abandonments_parts float str_to_float float_rsub current_year
      in_bounds isdecimal py_str to_datetime_infer str_accessor_ok ab.
Proof.
  unfold clean_abandonments, clean_abandonments_parts.
  unfold part_calendar, part_region, part_age, part_weight, part_sex,
    part_species, part_dates, part_happenDt.
  repeat match goal with
  | |- ?x ≫= _ = _ => destruct x; cbn [mbind result_bind]; [|reflexivity]
  end.
  reflexivity.
Qed.

Lemma part_sex_Ok df out :
  p_sex df = Ok out ↔
  ∃ sexCd neuterYn,
    get df "sexCd" = Some sexCd ∧ get df "neuterYn" = Some neuterYn ∧
    out = setitem (setitem df "sex" (map_dict float (sex_codes float) <$> sexCd))
            "neuter" (map_dict float (neuter_codes float) <$> neuterYn).
Proof.
  unfold part_sex. split.
  - destruct (get df "sexCd") as [sexCd|] eqn:E1; [|done]. cbn [attr mbind result_bind].
    rewrite get_setitem_ne by str_ne.
    destruct (get df "neuterYn") as [neuterYn|] eqn:E2; [|done]. cbn [attr mbind result_bind].
    intros [= <-]. eauto.
  - intros (sexCd & neuterYn & E1 & E2 & ->). rewrite E1. cbn [attr mbind result_bind].
    rewrite get_setitem_ne by str_ne. by rewrite E2.
Qed.


Lemma part_weight_eq raw df :
  p_weight raw df
  = Ok (setitem df "weight"
          (clean_weight float str_to_float py_str <$> ((λ x, get_raw x "weight") <$> raw))).
Proof.
  unfold part_weight. rewrite getitem_get, get_setitem_eq. cbn [mbind result_bind].
  f_equal. unfold setitem; cbn [nrows columns]. f_equal.
  rewrite insert_insert_eq. f_equal.
  rewrite <- !list_fmap_compose. done.
Qed.

Lemma part_age_eq df :
  p_age df
  = Ok (setitem (setitem df "birthYear" (birth_year df))
          "age" (year_minus float float_rsub current_year <$> birth_year df)).
Proof.
  unfold part_age, birthYear_of. rewrite getitem_get.
  destruct (get df "ageRaw") as [ageRaw|].
  - by rewrite get_setitem_eq.
  - by rewrite get_setitem_scalar_eq.
Qed.

Lemma part_region_Ok df out :
  p_region df = Ok out ↔
  ∃ sigungu,
    get df "sigungu" = Some sigungu ∧ sigungu ≠ [] ∧
    out = drop float
            (setitem
               (setitem
                  (setitem
                     (setitem df "_sido_tmp" (fst <$> (split_sido_sigungu <$> sigungu)))
                     "_sigungu_tmp" (snd <$> (split_sido_sigungu <$> sigungu)))
                  "sido" (sido_of df sigungu))
               "sigungu" (sigungu_of sigungu))
            ["_sido_tmp"; "_sigungu_tmp"].
Proof.
  unfold part_region, sido_of, sigungu_of.
  destruct (get df "sigungu") as [sigungu|] eqn:Esg; cbn [attr mbind result_bind].
  2: { split; [done|]. by intros (? & ? & _). }
  unfold require. case_bool_decide as Hnil; cbn [negb mbind result_bind].
  { split; [done|]. intros (? & [= <-] & ? & _). done. }
  rewrite getitem_get. frame_simpl. cbn [mbind result_bind].
  destruct (get df "sido") as [sido|] eqn:Esido;
    rewrite getitem_get; frame_simpl; cbn [mbind result_bind];
    rewrite Esg; cbn [attr mbind result_bind].
  all: split; [intros [= <-]; eauto | intros (? & [= <-] & _ & ->); done].
Qed.

Lemma part_calendar_Ok happenDt df out :
  p_calendar (Some happenDt) df = Ok out ↔
  ∃ h,
    get df "happenDt" = Some h ∧
    out = setitem (setitem (setitem df "month" (dt_month <$> h))
                     "weekday" (dt_day_name <$> h))
            "season" (get_season <$> (dt_month <$> h)).
Proof.
  unfold part_calendar. rewrite getitem_get.
  destruct (get df "happenDt") as [h|] eqn:Eh; cbn [mbind result_bind].
  2: { split; [done|]. by intros (? & ? & _). }
  unfold require. rewrite bool_decide_true by eauto. cbn [mbind result_bind].
  rewrite getitem_get. frame_simpl. cbn [mbind result_bind].
  split; [intros [= <-]; eauto | intros (? & [= <-] & ->); done].
Qed.

Lemma part_calendar_None df : ∃ e, p_calendar None df = Raise e.
Proof.
  unfold part_calendar. rewrite getitem_get.
  destruct (get df "happenDt"); cbn [mbind result_bind]; [|eauto].
  unfold require. rewrite bool_decide_false by (by intros [? ?]).
  cbn [mbind result_bind]. eauto.
Qed.

Lemma bind_Ok {A B} (m : result A) (k : A → result B) (b : B) :
  m ≫= k = Ok b ↔ ∃ a, m = Ok a ∧ k a = Ok b.
Proof.
  destruct m as [a|e]; cbn [mbind result_bind].
  - split; [eauto|]. by intros (? & [= <-] & ?).
  - split; [done|]. by intros (? & ? & _).
Qed.

Lemma birthYear_of_ext df df' :
  get df "ageRaw" = get df' "ageRaw" → nrows df = nrows df' →
  birth_year df = birth_year df'.
Proof. unfold birthYear_of. by intros -> ->. Qed.

Lemma sido_of_ext df df' sigungu :
  get df "sido" = get df' "sido" → sido_of df sigungu = sido_of df' sigungu.
Proof. unfold sido_of. by intros ->. Qed.

(** When [clean_abandonments] returns, and what. *)
Lemma clean_abandonments_Ok ab out :
  clean_ab ab = Ok out ↔
  ∃ happenDt raw sexCd neuterYn sigungu,
    get ab "happenDt" = Some happenDt ∧ get ab "raw" = Some raw ∧
    get ab "sexCd" = Some sexCd ∧ get ab "neuterYn" = Some neuterYn ∧
    get ab "sigungu" = Some sigungu ∧ sigungu ≠ [] ∧
    str_accessor_ok ((λ x, get_raw x "kindFullNm") <$> raw) = true ∧
    out = cleaned_ab ab happenDt raw sexCd neuterYn sigungu.
Proof.
  rewrite clean_abandonments_parts_eq. unfold clean_abandonments_parts.
  unfold part_happenDt. rewrite getitem_get.
  destruct (get ab "happenDt") as [happenDt|] eqn:EhD.
  2: { split; [|by intros (? & ? & ? & ? & ? & ? & _)].
       intros H. exfalso. revert H. frame_simpl.
       destruct (get ab "raw"); cbn [mbind result_bind]; [|done].
       intros H. do 5 (apply bind_Ok in H as (? & _ & H)).
       match type of H with part_calendar _ _ ?d = _ =>
         destruct (part_calendar_None d) as [e He] end.
       by rewrite He in H. }
  frame_simpl.
  destruct (get ab "raw") as [raw|] eqn:Eraw; cbn [mbind result_bind].
  2: { split; [done|]. by intros (? & ? & ? & ? & ? & ? & ? & _). }
  unfold require.
  destruct (str_accessor_ok _) eqn:Estr; cbn [mbind result_bind].
  2: { split; [done|].
       intros (? & ? & ? & ? & ? & _ & [= <-] & ? & ? & ? & ? & ? & _). congruence. }
  rewrite bind_Ok. setoid_rewrite part_sex_Ok.
  setoid_rewrite bind_Ok. setoid_rewrite part_weight_eq.
  setoid_rewrite bind_Ok. setoid_rewrite part_age_eq.
  setoid_rewrite bind_Ok. setoid_rewrite part_region_Ok.
  setoid_rewrite part_calendar_Ok.
  unfold part_species, part_dates. split.
  - intros (a & (sexCd & neuterYn & E1 & E2 & ->) & a0 & [= <-] & a1 & [= <-] & a2
            & (sigungu & E3 & Hne & ->) & h & E4 & ->).
    revert E1 E2 E3 E4. frame_simpl. intros E1 E2 E3 [= <-].
    exists happenDt, raw, sexCd, neuterYn, sigungu. split_and!; try done.
    unfold cleaned, part_species, part_dates.
    rewrite !(birthYear_of_ext (setitem _ _ _) ab) by (by frame_simpl).
    rewrite !(sido_of_ext (setitem _ _ _) ab) by (by frame_simpl).
    reflexivity.
  - intros (? & ? & sexCd & neuterYn & sigungu & [= <-] & [= <-] & E1 & E2 & E3 & Hne & _ & ->).
    eexists. split.
    { exists sexCd, neuterYn. frame_simpl. split_and!; [done..|reflexivity]. }
    eexists. split; [reflexivity|]. eexists. split; [reflexivity|].
    eexists. split.
    { exists sigungu. frame_simpl. split_and!; [done..|reflexivity]. }
    eexists. split; [by frame_simpl|].
    unfold cleaned, part_species, part_dates.
    rewrite !(birthYear_of_ext (setitem _ _ _) ab) by (by frame_simpl).
    rewrite !(sido_of_ext (setitem _ _ _) ab) by (by frame_simpl).
    reflexivity.
Qed.

(** The columns of the cleaned table. *)
Lemma get_cleaned ab happenDt raw sexCd neuterYn sigungu c :
  get (cleaned_ab ab happenDt raw sexCd neuterYn sigungu) c =
  let raw_ key := (λ x, get_raw x key) <$> raw in
  let dt := to_dt <$> happenDt in
  if String.eqb c "season" then Some (get_season <$> (dt_month <$> dt))
  else if String.eqb c "weekday" then Some (dt_day_name <$> dt)
  else if String.eqb c "month" then Some (dt_month <$> dt)
  else if String.eqb c "_sido_tmp" then None
  else if String.eqb c "_sigungu_tmp" then None
  else if String.eqb c "sigungu" then Some (sigungu_of sigungu)
  else if String.eqb c "sido" then Some (sido_of ab sigungu)
  else if String.eqb c "age"
    then Some (year_minus float float_rsub current_year <$> birth_year ab)
  else if String.eqb c "birthYear" then Some (birth_year ab)
  else if String.eqb c "weight"
    then Some (clean_weight float str_to_float py_str <$> raw_ "weight")
  else if String.eqb c "neuter"
    then Some (map_dict float (neuter_codes float) <$> neuterYn)
  else if String.eqb c "sex" then Some (map_dict float (sex_codes float) <$> sexCd)
  else if String.eqb c "breed" then Some (str_remove_bracketed <$> raw_ "kindFullNm")
  else if String.eqb c "species" then Some (str_extract_bracketed <$> raw_ "kindFullNm")
  else if String.eqb c "updateDt" then Some (to_datetime_infer (raw_ "updTm"))
  else if String.eqb c "noticeEdt" then Some (to_dt <$> raw_ "noticeEdt")
  else if String.eqb c "noticeSdt" then Some (to_dt <$> raw_ "noticeSdt")
  else if String.eqb c "happenDt" then Some dt
  else get ab c.
Proof.
  cbv zeta. unfold cleaned, part_species, part_dates.
  repeat match goal with
  | |- context [String.eqb c ?k] =>
      destruct (String.eqb_spec c k) as [->|?]; [by frame_simpl|]
  end.
  by frame_simpl.
Qed.

Lemma nrows_cleaned ab happenDt raw sexCd neuterYn sigungu :
  nrows (cleaned_ab ab happenDt raw sexCd neuterYn sigungu) = nrows ab.
Proof. done. Qed.

(** *** Cells of the region columns *)

Lemma to_datetime_Ymd_idem (v : value float) : to_dt (to_dt v) = to_dt v.
Proof.
  assert (∀ d, to_dt (timestamp_of float in_bounds d) = timestamp_of float in_bounds d) as Hts.
  { intros d. unfold timestamp_of. by destruct (valid_date d && in_bounds d). }
  destruct v as [k|s|z|x|d t|kv]; simpl; try done.
  - by destruct (strptime_Ymd s).
  - by destruct ((10000000 <=? z) && (z <=? 99999999)).
Qed.

Lemma split_sido_sigungu_snd_token (v : value float) (t : value float) :
  (split_sido_sigungu v).2 = t → isna t = false →
  split_sido_sigungu t = (t, NA PyNone).
Proof.
  destruct v as [k|s|z|x|d t'|kv]; simpl; try by intros <-.
  destruct (split s) as [|p0 [|p1 ps]] eqn:Es; simpl; try by intros <-.
  intros <- _. simpl.
  assert (p1 ∈ split s) as [Hne Hall]%split_tokens by (rewrite Es; set_solver).
  by rewrite split_token.
Qed.

(** The cell of [sigungu] after cleaning, from the cell before. *)
Lemma sigungu_of_lookup (sigungu : list (value float)) (i : nat) :
  sigungu_of sigungu !! i
  = (λ g, if isna (split_sido_sigungu g).2 then g else (split_sido_sigungu g).2)
    <$> sigungu !! i.
Proof.
  unfold sigungu_of, where_. rewrite !lookup_zip_with.
  rewrite !list_lookup_fmap.
  destruct (sigungu !! i) as [g|]; simpl; [|done].
  unfold notna. by destruct (isna _).
Qed.

Lemma sigungu_of_fmap (sigungu : list (value float)) :
  sigungu_of sigungu
  = (λ g, if isna (split_sido_sigungu g).2 then g else (split_sido_sigungu g).2)
    <$> sigungu.
Proof.
  apply list_eq; intros i. by rewrite sigungu_of_lookup, list_lookup_fmap.
Qed.

Lemma split_sido_sigungu_fst_na (g : value float) :
  isna (split_sido_sigungu g).1 = true → isna (split_sido_sigungu g).2 = true.
Proof.
  destruct g as [k|s|z|x|d t'|kv]; simpl; try done.
  by destruct (split s) as [|p0 [|p1 ps]].
Qed.

(** The cell of [sido] after cleaning, from the cells before. *)
Lemma sido_of_lookup ab (sigungu : list (value float)) (i : nat) :
  sido_of ab sigungu !! i =
  match get ab "sido" with
  | None => (λ g, (split_sido_sigungu g).1) <$> sigungu !! i
  | Some sido =>
      v ← sido !! i; g ← sigungu !! i;
      Some (if isna v then (split_sido_sigungu g).1 else v)
  end.
Proof.
  unfold sido_of, fillna. destruct (get ab "sido") as [sido|].
  - rewrite lookup_zip_with, !list_lookup_fmap.
    destruct (sido !! i); simpl; [|done]. by destruct (sigungu !! i).
  - rewrite !list_lookup_fmap. by destruct (sigungu !! i).
Qed.

Lemma sido_of_again ab out (sigungu : list (value float)) :
  get out "sido" = Some (sido_of ab sigungu) →
  sido_of out (sigungu_of sigungu) = sido_of ab sigungu.
Proof.
  intros Hout. apply list_eq; intros i.
  rewrite (sido_of_lookup out), Hout, sigungu_of_lookup, (sido_of_lookup ab).
  destruct (get ab "sido") as [sido|].
  - destruct (sido !! i) as [x|]; simpl; [|done].
    destruct (sigungu !! i) as [g|]; simpl; [|done].
    f_equal. destruct (isna x) eqn:Ex; [|by rewrite Ex].
    destruct (isna (split_sido_sigungu g).1) eqn:Ey; [|done].
    by rewrite (split_sido_sigungu_fst_na g Ey).
  - destruct (sigungu !! i) as [g|]; simpl; [|done].
    f_equal. destruct (isna (split_sido_sigungu g).1) eqn:Ey; [|done].
    by rewrite (split_sido_sigungu_fst_na g Ey).
Qed.

Lemma sigungu_of_again (sigungu : list (value float)) :
  sigungu_of (sigungu_of sigungu) = sigungu_of sigungu.
Proof.
  rewrite !sigungu_of_fmap, <- list_fmap_compose. apply list_fmap_ext.
  intros i g _. simpl.
  destruct (isna (split_sido_sigungu g).2) eqn:E; [by rewrite E|].
  by rewrite (split_sido_sigungu_snd_token g _ eq_refl E).
Qed.

Lemma sigungu_of_nil (sigungu : list (value float)) :
  sigungu_of sigungu = [] → sigungu = [].
Proof. rewrite sigungu_of_fmap. apply fmap_nil_inv. Qed.

(** C4. Running the Normalizer on its own output is a no-op: when
    [clean_abandonments] returns a table, cleaning that table again (the clock
    standing at the same year) returns the very same table, so every date,
    weight, species, sex, neuter, region and calendar field keeps its
    value. *)
Theorem clean_abandonments_idempotent (ab out : DataFrame float) :
  clean_abandonments float str_to_float float_rsub current_year in_bounds
    isdecimal py_str to_datetime_infer str_accessor_ok ab = Ok out →
  clean_abandonments float str_to_float float_rsub current_year in_bounds
    isdecimal py_str to_datetime_infer str_accessor_ok out = Ok out.
Proof.
  intros (happenDt & raw & sexCd & neuterYn & sigungu & EhD & Eraw & Esex & Eneu
          & Esg & Hne & Hstr & ->)%clean_abandonments_Ok.
  apply clean_abandonments_Ok.
  exists (to_dt <$> happenDt), raw, sexCd, neuterYn, (sigungu_of sigungu).
  split_and!; try (rewrite get_cleaned; assumption || reflexivity).
  { by intros ?%sigungu_of_nil. }
  { done. }
  apply DataFrame_eq; [done|]. intros c.
  rewrite get_cleaned with (ab := cleaned_ab _ _ _ _ _ _).
  rewrite !get_cleaned with (ab := ab). cbv zeta.
  assert ((to_dt <$> (to_dt <$> happenDt)) = (to_dt <$> happenDt)) as ->.
  { rewrite <- list_fmap_compose. apply list_fmap_ext. intros ???. apply to_datetime_Ymd_idem. }
  rewrite sigungu_of_again.
  rewrite sido_of_again with (ab := ab) by (by rewrite get_cleaned).
  rewrite birthYear_of_ext with (df := cleaned_ab _ _ _ _ _ _) (df' := ab)
    by (by rewrite ?get_cleaned).
  repeat match goal with
  | |- context [String.eqb c ?k] => destruct (String.eqb c k); [done|]
  end.
  done.
Qed.

(** C1 (as amended).  For every abandonment record, [sido] keeps its value
    whenever the canonical [sido] cell is not missing, and takes the first
    token of the composite region string only when that cell is missing or
    the table has no [sido] column.  [sigungu] takes the second token of the
    composite string whenever the string has one, and keeps its value
    otherwise. *)
Theorem region_fields ab out (sigungu : list (value float)) (i : nat) (g : value float) :
  clean_ab ab = Ok out →
  get ab "sigungu" = Some sigungu → sigungu !! i = Some g →
  (∀ sido v, get ab "sido" = Some sido → sido !! i = Some v →
     cell out "sido" i = Some (if isna v then (split_sido_sigungu g).1 else v))
  ∧ (get ab "sido" = None → cell out "sido" i = Some (split_sido_sigungu g).1)
  ∧ cell out "sigungu" i
    = Some (if isna (split_sido_sigungu g).2 then g else (split_sido_sigungu g).2).
Proof.
  intros (happenDt & raw & sexCd & neuterYn & sg & EhD & Eraw & Esex & Eneu
          & Esg & Hne & Hstr & ->)%clean_abandonments_Ok Hsg Hg.
  assert (sg = sigungu) as -> by congruence.
  split_and!.
  - intros sido v Hsido Hv.
    erewrite cell_get by (by rewrite get_cleaned).
    by rewrite sido_of_lookup, Hsido, Hv, Hg.
  - intros Hsido. erewrite cell_get by (by rewrite get_cleaned).
    by rewrite sido_of_lookup, Hsido, Hg.
  - erewrite cell_get by (by rewrite get_cleaned).
    by rewrite sigungu_of_lookup, Hg.
Qed.

(** C2 (as amended).  For a composite species string made of "[", X, "]",
    whitespace and Y, where X has neither "]" nor a line break and Y neither
    starts with whitespace nor holds a further bracketed group,
    [clean_abandonments] gives species X and breed Y.  For a string with no
    bracketed group at all, species is missing and breed is the string
    unchanged. *)
Theorem species_breed_split ab out raw (i : nat) (r : value float) (s : pystr) :
  clean_ab ab = Ok out →
  get ab "raw" = Some raw → raw !! i = Some r → get_raw r "kindFullNm" = Str s →
  (∀ X ws Y,
     s = lbracket :: X ++ rbracket :: ws ++ Y →
     rbracket ∉ X → newline ∉ X →
     Forall (λ a : N, isspace a = true) ws → starts_with_space Y = false →
     ¬ has_group lbracket rbracket Y →
     cell out "species" i = Some (Str X) ∧ cell out "breed" i = Some (Str Y))
  ∧ (¬ has_group lbracket rbracket s →
     cell out "species" i = Some (NA NaN) ∧ cell out "breed" i = Some (Str s)).
Proof.
  intros (happenDt & raw' & sexCd & neuterYn & sg & EhD & Eraw & Esex & Eneu
          & Esg & Hne & Hstr & ->)%clean_abandonments_Ok Hraw Hr Hs.
  assert (raw' = raw) as -> by congruence.
  assert (cell (cleaned_ab ab happenDt raw sexCd neuterYn sg) "species" i
          = Some (str_extract_bracketed (Str s))) as ->.
  { erewrite cell_get by (by rewrite get_cleaned).
    by rewrite !list_lookup_fmap, Hr; simpl; rewrite Hs. }
  assert (cell (cleaned_ab ab happenDt raw sexCd neuterYn sg) "breed" i
          = Some (str_remove_bracketed (Str s))) as ->.
  { erewrite cell_get by (by rewrite get_cleaned).
    by rewrite !list_lookup_fmap, Hr; simpl; rewrite Hs. }
  simpl. unfold extract_bracketed, remove_bracketed. split.
  - intros X ws Y -> HX1 HX2 Hws HY1 HY2.
    rewrite search_group_match by done.
    rewrite sub_group_match by (done || apply lstrip_length).
    rewrite lstrip_app by done. by rewrite sub_group_None.
  - intros Hno. rewrite search_group_None by done. by rewrite sub_group_None.
Qed.

Lemma part_weight_total raw df : ∃ out, p_weight raw df = Ok out.
Proof. rewrite part_weight_eq. eauto. Qed.

Lemma remove_parenthesized_unit (number unit : pystr) :
  lparen ∉ number → rparen ∉ unit → newline ∉ unit →
  remove_parenthesized (number ++ lparen :: unit ++ [rparen]) = number.
Proof.
  intros Hn Hu1 Hu2. unfold remove_parenthesized.
  induction number as [|a number IH]; simpl.
  - rewrite sub_group_match by done. done.
  - apply not_elem_of_cons in Hn as [Ha Hn].
    rewrite sub_group_cons_skip by done. by rewrite IH.
Qed.

(** C3 (as amended).  The cleaned weight of a record is [clean_weight] of
    its raw weight.  For a string number, "(", unit, ")" where the number is
    not empty and has no "(" and the unit has neither ")" nor a line break,
    it is the number given to numeric coercion.  A non-empty string with no
    parenthesised group goes to numeric coercion unchanged.  A string that is
    empty once its groups are stripped gives missing; so does one whose
    remainder is no number.  The weight step never raises. *)
Theorem weight_cleaning ab out raw (i : nat) (r : value float) :
  clean_ab ab = Ok out →
  get ab "raw" = Some raw → raw !! i = Some r →
  let cw := clean_weight float str_to_float py_str in
  cell out "weight" i = Some (cw (get_raw r "weight"))
  ∧ (∀ number unit,
       number ≠ [] → lparen ∉ number → rparen ∉ unit → newline ∉ unit →
       cw (Str (number ++ lparen :: unit ++ [rparen])) = to_num (Str number))
  ∧ (∀ s : pystr, s ≠ [] → ¬ has_group lparen rparen s → cw (Str s) = to_num (Str s))
  ∧ (∀ s : pystr, remove_parenthesized s = [] → cw (Str s) = NA NaN)
  ∧ (∀ s : pystr, str_to_float (remove_parenthesized s) = None → cw (Str s) = NA NaN)
  ∧ (∀ raw' df, ∃ df', p_weight raw' df = Ok df').
Proof.
  intros (happenDt & raw' & sexCd & neuterYn & sg & EhD & Eraw & Esex & Eneu
          & Esg & Hne & Hstr & ->)%clean_abandonments_Ok Hraw Hr cw.
  assert (raw' = raw) as -> by congruence.
  split_and!.
  - erewrite cell_get by (by rewrite get_cleaned).
    by rewrite !list_lookup_fmap, Hr.
  - intros number unit Hne' Hn Hu1 Hu2. unfold cw, clean_weight. simpl.
    rewrite remove_parenthesized_unit by done. by destruct number.
  - intros s Hne' Hno. unfold cw, clean_weight. simpl.
    unfold remove_parenthesized. rewrite sub_group_None by done. by destruct s.
  - intros s Hs. unfold cw, clean_weight. simpl. by rewrite Hs.
  - intros s Hs. unfold cw, clean_weight. simpl.
    destruct (remove_parenthesized s) eqn:E; [done|]. simpl. by rewrite Hs.
  - apply part_weight_total.
Qed.

Lemma get_season_month (m : Z) :
  get_season (float := float) (Int m) = Str (py (season_of_month m)).
Proof.
  unfold get_season, season_of_month.
  repeat match goal with |- context [(?a =? ?b)] => destruct (Z.eqb_spec a b); [subst; done|] end.
  repeat match goal with |- context [(?a <=? ?b)] => destruct (Z.leb_spec a b) end;
   simpl; try done; lia.
Qed.

End PipelineFacts.

(** ** Field Normalizer: registrations *)

Section RegistrationFacts.
Context (float : Type) (str_to_float : pystr → option float).
Abbreviation clean_reg := (clean_registrations float str_to_float).
Abbreviation to_num := (to_numeric float str_to_float).
Implicit Types (reg df out : DataFrame float) (raw : list (value float)) (c : string).

Lemma backfill_absent df c key raw :
  get df c = None → get df "raw" = Some raw →
  backfill float df c key = Ok (setitem df c ((λ x, get_raw x key) <$> raw)).
Proof.
  intros Hc Hraw. unfold backfill. rewrite has_column_get, Hc.
  rewrite bool_decide_false by (by intros [? ?]).
  by rewrite getitem_get, Hraw.
Qed.

Lemma backfill_present df c key s :
  get df c = Some s → backfill float df c key = Ok df.
Proof.
  intros Hc. unfold backfill. rewrite has_column_get, Hc.
  by rewrite bool_decide_true by eauto.
Qed.

(** C7.  A registration table that has a [raw] column and none of the
    optional canonical columns (sido, sigungu, birthYear, rfidType, kind,
    species, count) is cleaned without error, and the cleaned table has sido
    read from the raw key CTPV, sigungu from SGG, birthYear from BRDT coerced
    to a number and count from CNT coerced to a number; in particular a
    record whose raw payload is a mapping with those four keys gets exactly
    their values. *)
Theorem registrations_backfilled reg raw :
  get reg "raw" = Some raw →
  get reg "sido" = None → get reg "sigungu" = None → get reg "birthYear" = None →
  get reg "rfidType" = None → get reg "kind" = None → get reg "species" = None →
  get reg "count" = None →
  ∃ out,
    clean_reg reg = Ok out
    ∧ get out "sido" = Some ((λ x, get_raw x "CTPV") <$> raw)
    ∧ get out "sigungu" = Some ((λ x, get_raw x "SGG") <$> raw)
    ∧ get out "birthYear" = Some (to_num <$> ((λ x, get_raw x "BRDT") <$> raw))
    ∧ get out "count" = Some (to_num <$> ((λ x, get_raw x "CNT") <$> raw))
    ∧ ∀ (i : nat) kv ctpv sgg brdt cnt,
        raw !! i = Some (Dict kv) →
        dict_get kv (py "CTPV") = Some ctpv → dict_get kv (py "SGG") = Some sgg →
        dict_get kv (py "BRDT") = Some brdt → dict_get kv (py "CNT") = Some cnt →
        cell out "sido" i = Some ctpv ∧ cell out "sigungu" i = Some sgg
        ∧ cell out "birthYear" i = Some (to_num brdt)
        ∧ cell out "count" i = Some (to_num cnt).
Proof.
  intros Hraw H1 H2 H3 H4 H5 H6 H7. unfold clean_registrations.
  erewrite backfill_absent by (frame_simpl; done). cbn [mbind result_bind].
  erewrite backfill_absent by (frame_simpl; done). cbn [mbind result_bind].
  frame_simpl. rewrite H3, getitem_get. frame_simpl. rewrite Hraw.
  cbn [mbind result_bind].
  erewrite backfill_absent by (frame_simpl; done). cbn [mbind result_bind].
  erewrite backfill_absent by (frame_simpl; done). cbn [mbind result_bind].
  erewrite backfill_absent by (frame_simpl; done). cbn [mbind result_bind].
  frame_simpl. rewrite H7, getitem_get. frame_simpl. rewrite Hraw.
  cbn [mbind result_bind].
  eexists. split; [reflexivity|].
  match goal with |- get ?o _ = _ ∧ _ => set (out := o) end.
  assert (get out "sido" = Some ((λ x, get_raw x "CTPV") <$> raw)) as Hsido
    by (subst out; by frame_simpl).
  assert (get out "sigungu" = Some ((λ x, get_raw x "SGG") <$> raw)) as Hsigungu
    by (subst out; by frame_simpl).
  assert (get out "birthYear" = Some (to_num <$> ((λ x, get_raw x "BRDT") <$> raw)))
    as HbirthYear by (subst out; by frame_simpl).
  assert (get out "count" = Some (to_num <$> ((λ x, get_raw x "CNT") <$> raw)))
    as Hcount by (subst out; by frame_simpl).
  split_and!; try done.
  intros i kv ctpv sgg brdt cnt Hi Hc Hs Hb Hn.
  erewrite cell_get by exact Hsido. erewrite cell_get by exact Hsigungu.
  erewrite cell_get by exact HbirthYear. erewrite cell_get by exact Hcount.
  rewrite !list_lookup_fmap, Hi. simpl. by rewrite Hc, Hs, Hb, Hn.
Qed.
End RegistrationFacts.

(** ** Field Normalizer: shelters *)

Section ShelterFacts.
Context (float : Type) (py_str : value float → pystr).
Context (to_datetime_infer : list (value float) → list (value float)).
Abbreviation clean_sh := (clean_shelters float py_str to_datetime_infer).
Abbreviation as_str := (astype_str float py_str).
Implicit Types (sh df out : DataFrame float) (raw : list (value float)) (c : string).

Lemma backfill_frame df df' c key c' :
  backfill float df c key = Ok df' → c ≠ c' → get df' c' = get df c'.
Proof.
  unfold backfill. destruct (has_column df c); [by intros [= <-]|].
  rewrite getitem_get. destruct (get df "raw"); [|done].
  intros [= <-] Hne. by frame_simpl.
Qed.

Lemma clean_shelters_Ok sh out :
  clean_sh sh = Ok out →
  ∃ careAddr,
    get sh "careAddr" = Some careAddr ∧ careAddr ≠ []
    ∧ get out "careAddr" = Some (as_str <$> careAddr)
    ∧ get out "sido" = Some (fst <$> (split_addr <$> (as_str <$> careAddr)))
    ∧ get out "sigungu" = Some (snd <$> (split_addr <$> (as_str <$> careAddr))).
Proof.
  unfold clean_shelters.
  destruct (get sh "careAddr") as [careAddr|] eqn:Ec; [|done].
  cbn [attr mbind result_bind]. rewrite getitem_get. frame_simpl.
  cbn [mbind result_bind]. unfold require. case_bool_decide as Hnil; [done|].
  cbn [negb mbind result_bind].
  intros (sh1 & H1 & (sh2 & H2 & (sh3 & H3 & [= <-])%bind_Ok)%bind_Ok)%bind_Ok.
  exists careAddr. split; [done|]. split; [by intros ->|].
  assert (∀ c, c ≠ "lat" → c ≠ "lng" → c ≠ "openDate" →
               get sh3 c = get (setitem (setitem (setitem sh "careAddr" (as_str <$> careAddr))
                  "sido" (fst <$> (split_addr <$> (as_str <$> careAddr))))
                  "sigungu" (snd <$> (split_addr <$> (as_str <$> careAddr)))) c) as Hframe.
  { intros c ? ? ?.
    assert (get sh3 c = get sh2 c) as ->.
    { destruct (get sh2 "openDate").
      - injection H3 as <-. by frame_simpl.
      - revert H3. rewrite getitem_get. destruct (get sh2 "raw"); [|done].
        intros [= <-]. by frame_simpl. }
    rewrite (backfill_frame _ _ _ _ c H2) by done.
    by rewrite (backfill_frame _ _ _ _ c H1) by done. }
  rewrite !Hframe by str_ne. by frame_simpl.
Qed.

(** C9 (as amended).  When [clean_shelters] returns, a shelter record whose
    [careAddr] cell is missing has that cell turned into the text of its
    missing marker ("nan" for NaN, "None" for None, "NaT" for NaT), its sido
    is that same text and its sigungu is missing; every [careAddr] cell of
    the cleaned table is text, so the address splitter never sees a
    non-string. *)
Theorem shelters_missing_address sh out careAddr (i : nat) (k : na) :
  clean_sh sh = Ok out →
  get sh "careAddr" = Some careAddr → careAddr !! i = Some (NA k) →
  cell out "careAddr" i = Some (Str (na_str k))
  ∧ cell out "sido" i = Some (Str (na_str k))
  ∧ cell out "sigungu" i = Some (NA PyNone)
  ∧ ∀ (j : nat) v, careAddr !! j = Some v → ∃ s : pystr, cell out "careAddr" j = Some (Str s).
Proof.
  intros (careAddr' & Hc & _ & H1 & H2 & H3)%clean_shelters_Ok Hc' Hi.
  assert (careAddr' = careAddr) as -> by congruence.
  erewrite !cell_get by eassumption. rewrite !list_lookup_fmap, Hi.
  split_and!; try by destruct k.
  intros j v Hj. erewrite cell_get by eassumption. rewrite list_lookup_fmap, Hj.
  simpl. destruct v as [[]| | | | |]; simpl; eauto.
Qed.
End ShelterFacts.

(** ** Joiner *)

Section JoinFacts.
Context (float : Type).
Context (merge_keys_ok : list (value float) → list (value float) → bool).
Context (key_eqb_other : value float → value float → bool).
Abbreviation matches_ := (matches float key_eqb_other).
Abbreviation rows_of_ := (rows_of float key_eqb_other).
Abbreviation join_rows_ := (join_rows float key_eqb_other).
Implicit Types (lk rk s : list (value float)) (ps : list (nat * option nat)) (k : value float).

Lemma rows_of_fst rk (i : nat) k p : p ∈ rows_of_ rk i k → p.1 = i.
Proof.
  unfold rows_of. destruct (matches_ k rk) as [|j js].
  - by intros ->%list_elem_of_singleton.
  - by intros (? & -> & _)%list_elem_of_fmap.
Qed.

Lemma rows_of_length rk (i : nat) k :
  length (rows_of_ rk i k) = (1 `max` length (matches_ k rk))%nat.
Proof.
  unfold rows_of. destruct (matches_ k rk) as [|j js]; [done|].
  rewrite length_fmap. simpl. lia.
Qed.

Lemma filter_all {A} (P : A → Prop) `{∀ x, Decision (P x)} (l : list A) :
  Forall P l → filter P l = l.
Proof.
  induction 1 as [|x l Hx _ IH]; [done|].
  by rewrite filter_cons_True, IH.
Qed.

Lemma filter_none {A} (P : A → Prop) `{∀ x, Decision (P x)} (l : list A) :
  Forall (λ x, ¬ P x) l → filter P l = [].
Proof.
  induction 1 as [|x l Hx _ IH]; [done|].
  by rewrite filter_cons_False.
Qed.

Lemma filter_fmap {A B} (f : A → B) (P : B → Prop) `{∀ y, Decision (P y)} (l : list A) :
  filter P (f <$> l) = f <$> filter (P ∘ f) l.
Proof.
  induction l as [|x l IH]; [done|]. cbn [fmap list_fmap].
  rewrite !filter_cons. unfold compose at 1. case_decide; simpl; by rewrite IH.
Qed.

Lemma join_rows_cons k lk rk :
  join_rows_ (k :: lk) rk
  = rows_of_ rk 0 k ++ (prod_map S id <$> join_rows_ lk rk).
Proof.
  unfold join_rows. rewrite imap_cons. cbn [mjoin list_join]. f_equal.
  rewrite (imap_ext _ (λ i k', fmap (prod_map S id) (rows_of_ rk i k'))).
  2: { intros i k' _. unfold compose, rows_of. destruct (matches_ k' rk); [done|].
       by rewrite <- list_fmap_compose. }
  generalize (rows_of_ rk). intros f. clear k.
  change (λ (i : nat) k', fmap (prod_map S id) (f i k'))
    with (λ (i : nat), fmap (prod_map S id) ∘ f i).
  rewrite <- fmap_imap. generalize (imap f lk). intros L.
  induction L as [|l L IH]; [done|].
  cbn [fmap list_fmap mjoin list_join]. rewrite fmap_app. by f_equal.
Qed.

(** The output rows that come from left row [i]. *)
Lemma join_rows_filter lk rk (i : nat) k :
  lk !! i = Some k →
  filter (λ p, p.1 = i) (join_rows_ lk rk) = rows_of_ rk i k.
Proof.
  revert i. induction lk as [|k0 lk IH]; intros i Hi; [done|].
  rewrite join_rows_cons, filter_app. destruct i as [|i]; simplify_eq/=.
  - rewrite filter_all, filter_none, app_nil_r; [done|..].
    + apply Forall_fmap, Forall_forall. by intros [] _.
    + apply Forall_forall. intros p Hp. by apply rows_of_fst in Hp.
  - rewrite filter_none.
    2: { apply Forall_forall. intros p Hp%rows_of_fst. simpl. lia. }
    rewrite filter_fmap. cbn [app].
    rewrite (list_filter_iff _ (λ p, p.1 = i)) by (intros []; simpl; lia).
    rewrite (IH i Hi). unfold rows_of. destruct (matches_ k rk); [done|].
    by rewrite <- list_fmap_compose.
Qed.

(** No left row is dropped; a row with matches is repeated once per match. *)
Lemma join_rows_count lk rk (i : nat) k :
  lk !! i = Some k →
  length (filter (λ p, p.1 = i) (join_rows_ lk rk))
  = (1 `max` length (matches_ k rk))%nat.
Proof. intros Hi. by rewrite (join_rows_filter _ _ _ _ Hi), rows_of_length. Qed.

(** With at most one match per left key, the output rows are the left rows. *)
Lemma join_rows_unique lk rk :
  (∀ k, k ∈ lk → length (matches_ k rk) ≤ 1)%nat →
  (join_rows_ lk rk).*1 = seq 0 (length lk).
Proof.
  induction lk as [|k lk IH]; intros Hu; [done|].
  rewrite join_rows_cons, fmap_app, <- list_fmap_compose.
  rewrite (list_fmap_ext (fst ∘ prod_map S id) (S ∘ fst)) by (by intros ? [] ?).
  rewrite list_fmap_compose, IH by (intros; apply Hu; by right).
  cbn [length seq]. rewrite fmap_S_seq.
  assert (length (matches_ k rk) ≤ 1)%nat as Hk by (apply Hu; by left).
  unfold rows_of. destruct (matches_ k rk) as [|j [|j' js]]; simpl in *; [done|done|lia].
Qed.

Lemma take_left_seq (s : list (value float)) ps :
  ps.*1 = seq 0 (length s) → take_left ps s = s.
Proof.
  intros Hps. unfold take_left.
  change (λ p : nat * option nat, default (NA NaN) (s !! p.1))
    with ((λ i : nat, default (NA NaN) (s !! i)) ∘ (fst : nat * option nat → nat)).
  rewrite list_fmap_compose, Hps.
  apply list_eq. intros i. rewrite list_lookup_fmap.
  destruct (s !! i) as [v|] eqn:Ev.
  - rewrite (proj2 (lookup_seq 0 (length s) i i)); [simpl; by rewrite Ev|].
    split; [done|]. by eapply lookup_lt_Some.
  - rewrite lookup_ge_None_2; [done|]. rewrite length_seq. by apply lookup_ge_None.
Qed.

Lemma take_right_None ps (s : list (value float)) (n i : nat) :
  ps !! n = Some (i, None) → take_right ps s !! n = Some (NA NaN).
Proof. intros Hn. unfold take_right. by rewrite list_lookup_fmap, Hn. Qed.

Lemma take_left_lookup ps (s : list (value float)) (n i : nat) o v :
  ps !! n = Some (i, o) → s !! i = Some v → take_left ps s !! n = Some v.
Proof. intros Hn Hv. unfold take_left. rewrite list_lookup_fmap, Hn. simpl. by rewrite Hv. Qed.

Lemma take_right_lookup ps (s : list (value float)) (n i j : nat) v :
  ps !! n = Some (i, Some j) → s !! j = Some v → take_right ps s !! n = Some v.
Proof. intros Hn Hv. unfold take_right. rewrite list_lookup_fmap, Hn. simpl. by rewrite Hv. Qed.


Lemma matches_length k rk :
  length (matches_ k rk)
  = length (filter (λ v, key_match float key_eqb_other k v = true) rk).
Proof.
  unfold matches. rewrite length_fmap.
  change (@pair nat (value float)) with (λ (i : nat) (v : value float), (id i, v)).
  generalize (@id nat). induction rk as [|v rk IH]; intros g; [done|].
  rewrite imap_cons, !filter_cons. cbn [snd].
  case_decide; cbn [length]; by rewrite <- (IH (g ∘ S)).
Qed.

(** Text keys without repeats among the shelter rows: no key matches two
    rows. *)
Lemma matches_NoDup (t : pystr) rk :
  NoDup rk → (∀ k, k ∈ rk → ∃ u : pystr, k = Str u) →
  (length (matches_ (Str t) rk) ≤ 1)%nat.
Proof.
  rewrite matches_length. intros Hnd Htext.
  induction Hnd as [|v rk Hv Hnd IH]; [simpl; lia|].
  rewrite filter_cons. case_decide as Hm.
  - destruct (Htext v) as [u ->]; [by left|].
    apply bool_decide_eq_true in Hm as ->.
    rewrite filter_none; [simpl; lia|].
    apply Forall_forall. intros k Hk Hk'.
    destruct (Htext k) as [u' ->]; [by right|].
    apply bool_decide_eq_true in Hk' as ->. done.
  - apply IH. intros k Hk. apply Htext. by right.
Qed.

Lemma select_Ok (df : DataFrame float) (cs : list string) r :
  select float df cs = Ok r →
  Forall2 (λ c p, p.1 = c ∧ get df c = Some p.2) cs r.
Proof.
  revert r; induction cs as [|c cs IH]; intros r; cbn [select].
  - intros [= <-]. constructor.
  - rewrite getitem_get. destruct (get df c) as [s|] eqn:Ec; [|done].
    cbn [mbind result_bind]. destruct (select float df cs) as [r'|] eqn:Er; [|done].
    cbn [mbind result_bind]. intros [= <-]. constructor; [done|]. by apply IH.
Qed.

Abbreviation merge_ := (merge_abandonments_with_shelters float merge_keys_ok key_eqb_other).

(** What the join returns: the event columns and the six shelter columns,
    along the rows of the join. *)
Lemma merge_Ok (ab sh : DataFrame float) out lk rk :
  merge_ ab sh = Ok out →
  get ab "careNm" = Some lk → get sh "careNm" = Some rk →
  ∃ lat lng careAddr divisionNm sido sigungu,
    get sh "lat" = Some lat ∧ get sh "lng" = Some lng ∧
    get sh "careAddr" = Some careAddr ∧ get sh "divisionNm" = Some divisionNm ∧
    get sh "sido" = Some sido ∧ get sh "sigungu" = Some sigungu ∧
    out = map_to_list (take_left (join_rows_ lk rk) <$> columns ab)
          ++ ((λ p, (if has_column ab p.1 then p.1 +:+ "_shelter" else p.1,
                     take_right (join_rows_ lk rk) p.2))
              <$> [("lat", lat); ("lng", lng); ("careAddr", careAddr);
                   ("divisionNm", divisionNm); ("sido", sido); ("sigungu", sigungu)]).
Proof.
  unfold merge_abandonments_with_shelters. intros (right & Hsel & Hm)%bind_Ok Hlk Hrk.
  apply select_Ok in Hsel. unfold shelter_columns in Hsel.
  repeat match goal with
  | H : Forall2 _ (_ :: _) _ |- _ =>
      apply Forall2_cons_inv_l in H as ([? ?] & ? & [? ?] & H & ->); simplify_eq/=
  | H : Forall2 _ [] _ |- _ => apply Forall2_nil_inv_l in H as ->
  end.
  revert Hm. unfold merge_left. rewrite getitem_get, Hlk. cbn [mbind result_bind].
  match goal with |- context [list_find ?P (?x :: ?l)] =>
    assert (list_find P (x :: l) = Some (0%nat, x)) as -> by reflexivity end.
  match goal with |- context [filter ?P ?l] =>
    assert (filter P l = tail l) as -> by reflexivity end.
  cbn [mbind result_bind tail]. unfold require.
  destruct (merge_keys_ok lk _); [|done]. cbn [mbind result_bind].
  case_bool_decide; [|done]. cbn [mbind result_bind]. intros [= <-].
  by repeat eexists.
Qed.


End JoinFacts.

(** ** Tables as objects *)

Section StoreFacts.
Context (float : Type).
Implicit Types (h : gmap nat (DataFrame float)) (l : nat).

Lemma call_clean_subseteq (body : DataFrame float → result (DataFrame float)) l h :
  h ⊆ (call_clean float body l h).1.
Proof.
  unfold call_clean, df_copy. destruct (h !! l) as [df|] eqn:El; [|done].
  assert (h !! fresh (dom h) = None) as Hfresh.
  { apply not_elem_of_dom, is_fresh. }
  rewrite lookup_insert_eq. destruct (body df) as [df'|e]; cbn [fst].
  - rewrite insert_insert_eq. by apply insert_subseteq.
  - by apply insert_subseteq.
Qed.

Lemma call_clean_new (body : DataFrame float → result (DataFrame float)) l h l' :
  (call_clean float body l h).2 = Ok l' →
  h !! l' = None
  ∧ ∃ df df', h !! l = Some df ∧ body df = Ok df'
      ∧ (call_clean float body l h).1 !! l' = Some df'.
Proof.
  unfold call_clean, df_copy. destruct (h !! l) as [df|] eqn:El; [|done].
  assert (h !! fresh (dom h) = None) as Hfresh.
  { apply not_elem_of_dom, is_fresh. }
  rewrite lookup_insert_eq. destruct (body df) as [df'|e] eqn:Eb; cbn [fst snd]; [|done].
  intros [= <-]. split; [done|]. exists df, df'. by rewrite lookup_insert_eq.
Qed.
Lemma call_clean_frame (body : DataFrame float → result (DataFrame float)) l h df :
  h !! l = Some df →
  (call_clean float body l h).1 !! l = Some df
  ∧ ∀ l', (call_clean float body l h).2 = Ok l' →
      l' ≠ l ∧ ∃ df', body df = Ok df' ∧ (call_clean float body l h).1 !! l' = Some df'.
Proof.
  intros Hl. split.
  - by eapply lookup_weaken, call_clean_subseteq.
  - intros l' (Hnew & df0 & df' & Hl0 & Hb & Hl')%call_clean_new.
    assert (df0 = df) as -> by congruence.
    split; [congruence|]. eauto.
Qed.
End StoreFacts.

Section CopyFacts.
Context (float : Type).
Context (str_to_float : pystr → option float) (float_rsub : Z → float → float).
Context (current_year : Z) (in_bounds : date → bool) (isdecimal : N → bool).
Context (py_str : value float → pystr).
Context (to_datetime_infer : list (value float) → list (value float)).
Context (str_accessor_ok : list (value float) → bool).

Abbreviation call_ab := (call_clean_abandonments float str_to_float float_rsub current_year
  in_bounds isdecimal py_str to_datetime_infer str_accessor_ok).
Abbreviation call_reg := (call_clean_registrations float str_to_float).
Abbreviation call_sh := (call_clean_shelters float py_str to_datetime_infer).

End CopyFacts.

(** ** Analyzer *)

Section AnalyzerFacts.
Context (float : Type).
Implicit Types (ab df : DataFrame float) (c : string).

Lemma cols_Ok df (cs : list string) (ss : list (list (value float))) :
  Forall2 (λ c s, get df c = Some s) cs ss → cols float df cs = ([], Ok ss).
Proof.
  induction 1 as [|c s cs ss Hc _ IH]; [done|].
  cbn [cols]. unfold col. rewrite getitem_get, Hc, IH. done.
Qed.

Lemma cols_Raise df (cs1 : list string) c (cs2 : list string) :
  Forall (λ c, is_Some (get df c)) cs1 → get df c = None →
  cols float df (cs1 ++ c :: cs2) = ([], Raise (KeyError c)).
Proof.
  intros H Hc. induction H as [|c1 cs1 [s Hs] _ IH]; cbn [cols app]; unfold col.
  - by rewrite getitem_get, Hc.
  - rewrite getitem_get, Hs, IH. done.
Qed.

Lemma cols_Raise_head df c (cs : list string) :
  get df c = None → cols float df (c :: cs) = ([], Raise (KeyError c)).
Proof. apply (cols_Raise df []). constructor. Qed.

Lemma has_column_Some df c (s : list (value float)) :
  get df c = Some s → has_column df c = true.
Proof. intros H. rewrite has_column_get, H. by apply bool_decide_true. Qed.

Lemma has_column_None df c : get df c = None → has_column df c = false.
Proof. intros H. rewrite has_column_get, H. apply bool_decide_false. by intros [? ?]. Qed.

Lemma has_column_false df c : has_column df c = false → get df c = None.
Proof.
  rewrite has_column_get. intros H%bool_decide_eq_false.
  destruct (get df c); [|done]. destruct H. eauto.
Qed.

(** Evaluate a routine whose column reads are settled. *)
Ltac run_report := cbv [report_bind print print_table fst snd app].

End AnalyzerFacts.

(** * The rest of the pipeline *)

(** ** Tokens of a region string *)

(** ** Tokens *)

Lemma split_space (ws s : pystr) :
  Forall (λ a, isspace a = true) ws → split (ws ++ s) = split s.
Proof. induction 1 as [|c ws Hc _ IH]; [done|]. simpl. by rewrite Hc. Qed.

Lemma split_cons_cons (a b : N) (s : pystr) :
  isspace a = false → isspace b = false →
  split (a :: b :: s)
  = match split (b :: s) with t :: ts => (a :: t) :: ts | [] => [[a]] end.
Proof.
  intros Ha Hb.
  change (split (a :: b :: s))
    with (if isspace a then split (b :: s)
          else if isspace b then [a] :: split (b :: s)
          else match split (b :: s) with t :: ts => (a :: t) :: ts | [] => [[a]] end).
  by rewrite Ha, Hb.
Qed.

Lemma split_token_app (t : pystr) (c : N) (s : pystr) :
  t ≠ [] → Forall (λ a, isspace a = false) t → isspace c = true →
  split (t ++ c :: s) = t :: split s.
Proof.
  intros Hne Ht Hc. induction t as [|a t IH]; [done|].
  apply Forall_cons in Ht as [Ha Ht].
  destruct t as [|b t'].
  - simpl. by rewrite Ha, Hc.
  - pose proof Ht as [Hb _]%Forall_cons.
    change ((a :: b :: t') ++ c :: s) with (a :: b :: (t' ++ c :: s)).
    rewrite split_cons_cons by done.
    change (b :: (t' ++ c :: s)) with ((b :: t') ++ c :: s).
    by rewrite IH.
Qed.

Lemma split_all_space (ws : pystr) :
  Forall (λ a, isspace a = true) ws → split ws = [].
Proof. intros H. rewrite <- (app_nil_r ws). by rewrite split_space. Qed.

Section SplitFacts.
Context (float : Type).

End SplitFacts.

(** ** Field Normalizer: abandonment events, its checks and columns *)

Section CleanFacts.
Context (float : Type).
Context (str_to_float : pystr → option float) (float_rsub : Z → float → float).
Context (current_year : Z) (in_bounds : date → bool) (isdecimal : N → bool).
Context (py_str : value float → pystr).
Context (to_datetime_infer : list (value float) → list (value float)).
Context (str_accessor_ok : list (value float) → bool).

Abbreviation clean_ab := (clean_abandonments float str_to_float float_rsub current_year
  in_bounds isdecimal py_str to_datetime_infer str_accessor_ok).
Abbreviation cleaned_ab := (cleaned float str_to_float float_rsub current_year
  in_bounds isdecimal py_str to_datetime_infer).
Implicit Types (ab df out : DataFrame float) (s raw : list (value float)) (c : string).

Lemma get_part_happenDt ab c :
  c ≠ "happenDt" → get (part_happenDt float in_bounds ab) c = get ab c.
Proof. intros Hc. unfold part_happenDt. destruct (get ab "happenDt"); by frame_simpl. Qed.

(** [clean_abandonments] as its checks, in the order they fail, and the
    table it returns. *)
Lemma clean_abandonments_checks ab :
  clean_ab ab =
  (raw ← getitem ab "raw";
   _ ← require (str_accessor_ok ((λ x, get_raw x "kindFullNm") <$> raw)) AttributeError;
   sexCd ← attr (get ab "sexCd");
   neuterYn ← attr (get ab "neuterYn");
   sigungu ← attr (get ab "sigungu");
   _ ← require (negb (bool_decide (sigungu = []))) (KeyError "_sido_tmp");
   happenDt ← attr (get ab "happenDt");
   Ok (cleaned_ab ab happenDt raw sexCd neuterYn sigungu)).
Proof.
  destruct (clean_ab ab) as [out|e] eqn:E.
  { apply clean_abandonments_Ok in E
      as (happenDt & raw & sexCd & neuterYn & sigungu & EhD & Eraw & Esex & Eneu
          & Esg & Hne & Hstr & ->).
    rewrite getitem_get, Eraw. cbn [mbind result_bind]. rewrite Hstr, Esex, Eneu, Esg, EhD.
    cbn [require attr mbind result_bind]. by rewrite bool_decide_false by done. }
  assert (∀ out, clean_ab ab ≠ Ok out) as Hno by (intros out; by rewrite E).
  rewrite <- E. clear E e.
  rewrite clean_abandonments_parts_eq. unfold clean_abandonments_parts.
  rewrite !getitem_get, get_part_happenDt by done.
  destruct (get ab "raw") as [raw|] eqn:Eraw; [|done]. cbn [mbind result_bind].
  destruct (str_accessor_ok _) eqn:Estr; [|done]. cbn [require mbind result_bind].
  unfold part_sex at 1. unfold part_species, part_dates. frame_simpl.
  rewrite !get_part_happenDt by done.
  destruct (get ab "sexCd") as [sexCd|] eqn:Esex; [|done]. cbn [attr mbind result_bind].
  frame_simpl. rewrite !get_part_happenDt by done.
  destruct (get ab "neuterYn") as [neuterYn|] eqn:Eneu; [|done]. cbn [attr mbind result_bind].
  rewrite part_weight_eq. cbn [mbind result_bind].
  rewrite part_age_eq. cbn [mbind result_bind].
  match goal with |- part_region _ ?d ≫= _ = _ =>
    destruct (part_region float d) as [reg|e] eqn:Ereg end.
  - apply part_region_Ok in Ereg as (sigungu & Esg & Hne & ->).
    revert Esg. frame_simpl. rewrite get_part_happenDt by done. intros Esg.
    rewrite Esg. cbn [attr mbind result_bind]. rewrite bool_decide_false by done.
    cbn [negb require mbind result_bind].
    destruct (get ab "happenDt") as [happenDt|] eqn:EhD.
    { destruct (Hno (cleaned_ab ab happenDt raw sexCd neuterYn sigungu)).
      apply clean_abandonments_Ok. exists happenDt, raw, sexCd, neuterYn, sigungu. done. }
    cbn [attr mbind result_bind]. unfold part_calendar. rewrite getitem_get. frame_simpl.
    unfold part_happenDt. rewrite EhD. frame_simpl. cbn [mbind result_bind].
    unfold require. by rewrite bool_decide_false by (by intros [? ?]).
  - revert Ereg. unfold part_region. frame_simpl. rewrite get_part_happenDt by done.
    destruct (get ab "sigungu") as [sigungu|] eqn:Esg; cbn [attr mbind result_bind];
      [|by intros [= <-]].
    unfold require. case_bool_decide as Hnil; cbn [negb mbind result_bind];
      [by intros [= <-]|].
    rewrite getitem_get. frame_simpl. cbn [mbind result_bind].
    rewrite get_part_happenDt by done.
    destruct (get ab "sido"); rewrite getitem_get; frame_simpl; cbn [mbind result_bind];
      rewrite ?get_part_happenDt by done; rewrite Esg; done.
Qed.
End CleanFacts.

Lemma search_digits4_found (isdecimal : N → bool) (pre y post : pystr) :
  Forall (λ a, isdecimal a = false) pre → length y = 4%nat →
  Forall (λ a, isdecimal a = true) y →
  search_digits4 isdecimal (pre ++ y ++ post) = Some y.
Proof.
  intros Hpre Hlen Hy. induction Hpre as [|p pre Hp _ IH].
  - destruct y as [|a [|b [|c [|d [|? ?]]]]]; try done.
    apply Forall_cons in Hy as [Ha Hy]. apply Forall_cons in Hy as [Hb Hy].
    apply Forall_cons in Hy as [Hc Hy]. apply Forall_cons in Hy as [Hd _].
    simpl. by rewrite Ha, Hb, Hc, Hd.
  - assert (4 ≤ length (pre ++ y ++ post))%nat as Hl by (rewrite !length_app; lia).
    change ((p :: pre) ++ y ++ post) with (p :: (pre ++ y ++ post)).
    destruct (pre ++ y ++ post) as [|b [|c [|d l]]] eqn:E; simpl in Hl; try lia.
    cbn [search_digits4]. rewrite Hp. cbn [andb]. exact IH.
Qed.

Lemma search_digits4_none (isdecimal : N → bool) (s : pystr) :
  Forall (λ a, isdecimal a = false) s → search_digits4 isdecimal s = None.
Proof.
  induction 1 as [|a s Ha _ IH]; [done|].
  destruct s as [|b [|c [|d l]]]; try done.
  cbn [search_digits4]. rewrite Ha. cbn [andb]. exact IH.
Qed.

Section CleanProps.
Context (float : Type).
Context (str_to_float : pystr → option float) (float_rsub : Z → float → float).
Context (current_year : Z) (in_bounds : date → bool) (isdecimal : N → bool).
Context (py_str : value float → pystr).
Context (to_datetime_infer : list (value float) → list (value float)).
Context (str_accessor_ok : list (value float) → bool).

Abbreviation clean_ab := (clean_abandonments float str_to_float float_rsub current_year
  in_bounds isdecimal py_str to_datetime_infer str_accessor_ok).
Abbreviation cleaned_ab := (cleaned float str_to_float float_rsub current_year
  in_bounds isdecimal py_str to_datetime_infer).
Abbreviation to_num := (to_numeric float str_to_float).
Abbreviation y_minus := (year_minus float float_rsub current_year).
Abbreviation birth_year := (birthYear_of float str_to_float isdecimal py_str).
Implicit Types (ab df out : DataFrame float) (s raw : list (value float)) (c : string).


(** X2.  What the cleaning leaves alone.  The cleaned table has the rows of
    the input, the sixteen derived columns and the columns read, and neither
    of the two working columns [_sido_tmp] and [_sigungu_tmp] (also when the
    input had columns of those names); every column that is not assigned is
    the input's column. *)
Theorem clean_abandonments_columns (ab out : DataFrame float) :
  clean_ab ab = Ok out →
  nrows out = nrows ab
  ∧ get out "_sido_tmp" = None ∧ get out "_sigungu_tmp" = None
  ∧ Forall (λ c, is_Some (get out c))
      ["happenDt"; "noticeSdt"; "noticeEdt"; "updateDt"; "species"; "breed"; "sex";
       "neuter"; "weight"; "birthYear"; "age"; "sido"; "sigungu"; "month"; "weekday";
       "season"; "raw"; "sexCd"; "neuterYn"]
  ∧ (∀ c, c ∉ ["happenDt"; "noticeSdt"; "noticeEdt"; "updateDt"; "species"; "breed";
               "sex"; "neuter"; "weight"; "birthYear"; "age"; "sido"; "sigungu";
               "month"; "weekday"; "season"; "_sido_tmp"; "_sigungu_tmp"] →
          get out c = get ab c).
Proof.
  intros (happenDt & raw & sexCd & neuterYn & sigungu & EhD & Eraw & Esex & Eneu
          & Esg & Hne & Hstr & ->)%clean_abandonments_Ok.
  split_and!; try (by rewrite get_cleaned).
  - done.
  - repeat (constructor; [by rewrite get_cleaned; eauto|]). constructor.
  - intros c Hc. rewrite !not_elem_of_cons in Hc. destruct_and!.
    rewrite get_cleaned. cbv zeta.
    repeat match goal with
    | |- context [String.eqb c ?k] =>
        rewrite (proj2 (String.eqb_neq c k)) by assumption
    end.
    done.
Qed.
End CleanProps.

Section CleanProps2.
Context (float : Type).
Context (str_to_float : pystr → option float) (float_rsub : Z → float → float).
Context (current_year : Z) (in_bounds : date → bool) (isdecimal : N → bool).
Context (py_str : value float → pystr).
Context (to_datetime_infer : list (value float) → list (value float)).
Context (str_accessor_ok : list (value float) → bool).

Abbreviation clean_ab := (clean_abandonments float str_to_float float_rsub current_year
  in_bounds isdecimal py_str to_datetime_infer str_accessor_ok).
Abbreviation cleaned_ab := (cleaned float str_to_float float_rsub current_year
  in_bounds isdecimal py_str to_datetime_infer).
Abbreviation to_num := (to_numeric float str_to_float).
Abbreviation y_minus := (year_minus float float_rsub current_year).
Abbreviation birth_year := (birthYear_of float str_to_float isdecimal py_str).
Implicit Types (ab df out : DataFrame float) (s raw : list (value float)) (c : string).

Lemma length_fillna (s other : list (value float)) :
  length (fillna s other) = (length s `min` length other)%nat.
Proof. unfold fillna. by rewrite length_zip_with. Qed.

Lemma length_where (s other : list (value float)) (cond : list bool) :
  length (where_ s cond other) = ((length s `min` length cond) `min` length other)%nat.
Proof. unfold where_. by rewrite !length_zip_with. Qed.

(** X3.  The cleaned table is rectangular: when every column of the input
    has one cell per row (and the format-free date parser returns as many
    cells as it is given), so has every column of the cleaned table. *)
Theorem clean_abandonments_wf (ab out : DataFrame float) :
  wf ab → (∀ s, length (to_datetime_infer s) = length s) →
  clean_ab ab = Ok out → wf out.
Proof.
  intros Hwf Hinfer
    (happenDt & raw & sexCd & neuterYn & sigungu & EhD & Eraw & Esex & Eneu
     & Esg & Hne & Hstr & ->)%clean_abandonments_Ok.
  pose proof (Hwf _ _ EhD) as LhD. pose proof (Hwf _ _ Eraw) as Lraw.
  pose proof (Hwf _ _ Esex) as Lsex. pose proof (Hwf _ _ Eneu) as Lneu.
  pose proof (Hwf _ _ Esg) as Lsg.
  assert (length (birth_year ab) = nrows ab) as Lby.
  { unfold birthYear_of. destruct (get ab "ageRaw") as [ageRaw|] eqn:Ea.
    - rewrite !length_fmap. by apply (Hwf "ageRaw").
    - by rewrite length_replicate. }
  assert (length (sido_of ab sigungu) = nrows ab) as Lsido.
  { unfold sido_of. destruct (get ab "sido") as [sido|] eqn:Ea.
    - rewrite length_fillna, !length_fmap, (Hwf "sido" sido Ea). lia.
    - by rewrite !length_fmap. }
  assert (length (sigungu_of sigungu) = nrows ab) as Lsg'.
  { unfold sigungu_of. rewrite length_where, !length_fmap. lia. }
  intros c s. rewrite nrows_cleaned.
  change (columns ?d !! c) with (get d c). rewrite get_cleaned. cbv zeta.
  repeat match goal with
  | |- context [String.eqb c ?k] =>
      destruct (String.eqb c k);
      [intros [= <-]; rewrite ?length_fmap, ?Hinfer, ?length_fmap; congruence|]
  end.
  exact (Hwf c s).
Qed.


End CleanProps2.

Lemma day_name_cases (d : date) :
  day_name d ∈ ["Monday"; "Tuesday"; "Wednesday"; "Thursday"; "Friday"; "Saturday"; "Sunday"].
Proof.
  unfold day_name. pose proof (dayofweek_range d) as H.
  assert (dayofweek d = 0 ∨ dayofweek d = 1 ∨ dayofweek d = 2 ∨ dayofweek d = 3
          ∨ dayofweek d = 4 ∨ dayofweek d = 5 ∨ dayofweek d = 6) as Hd by lia.
  destruct_or!; rewrite Hd; cbn [Z.to_nat Pos.to_nat Pos.iter_op Init.Nat.add nth];
    rewrite !elem_of_cons; tauto.
Qed.

Section DomainFacts.
Context (float : Type).
Context (str_to_float : pystr → option float) (float_rsub : Z → float → float).
Context (current_year : Z) (in_bounds : date → bool) (isdecimal : N → bool).
Context (py_str : value float → pystr).
Context (to_datetime_infer : list (value float) → list (value float)).
Context (str_accessor_ok : list (value float) → bool).

Abbreviation clean_ab := (clean_abandonments float str_to_float float_rsub current_year
  in_bounds isdecimal py_str to_datetime_infer str_accessor_ok).
Abbreviation cleaned_ab := (cleaned float str_to_float float_rsub current_year
  in_bounds isdecimal py_str to_datetime_infer).
Abbreviation to_dt := (to_datetime_Ymd float in_bounds).
Abbreviation to_num := (to_numeric float str_to_float).
Implicit Types (ab df out : DataFrame float) (s raw : list (value float)) (c : string).

Lemma to_datetime_Ymd_cases (v : value float) :
  to_dt v = NA NaT ∨ ∃ d t, to_dt v = Ts d t.
Proof.
  assert (∀ d, timestamp_of float in_bounds d = NA NaT
               ∨ ∃ d' t, timestamp_of float in_bounds d = Ts d' t) as Hts.
  { intros d. unfold timestamp_of. destruct (valid_date d && in_bounds d); eauto. }
  destruct v as [k|s|z|x|d t|kv]; simpl; eauto.
  - destruct (strptime_Ymd s); eauto.
  - destruct ((10000000 <=? z) && (z <=? 99999999)); eauto.
Qed.

Lemma to_numeric_text_cases (v : value float) :
  (∀ z, v ≠ Int z) → to_num v = NA NaN ∨ ∃ x, to_num v = Float x.
Proof.
  intros Hz. destruct v as [k|s|z|x|d t|kv]; simpl; eauto.
  - destruct (str_to_float s); eauto.
  - by destruct (Hz z).
Qed.

Lemma get_season_cases (v : value float) :
  get_season (dt_month v)
  ∈ [Str (py "Spring"); Str (py "Summer"); Str (py "Fall"); Str (py "Winter"); NA NaN].
Proof.
  destruct v as [k|s|z|x|d t|kv]; simpl; try (rewrite !elem_of_cons; tauto).
  repeat match goal with |- context [if ?b then _ else _] => destruct b end;
    rewrite !elem_of_cons; tauto.
Qed.


End DomainFacts.

(** ** Field Normalizer: backfilled columns *)

Section BackfillFacts.
Context (float : Type).
Implicit Types (df reg out : DataFrame float) (c key : string).

Lemma setitem_id df c (s : list (value float)) :
  get df c = Some s → setitem df c s = df.
Proof.
  intros H. destruct df as [n cols]. unfold setitem, get in *. cbn [nrows columns] in *.
  f_equal. by apply insert_id.
Qed.

Lemma backfill_eq df c key :
  backfill float df c key =
  match column_or_raw df c key with
  | Some s => Ok (setitem df c s)
  | None => Raise (KeyError "raw")
  end.
Proof.
  unfold backfill, column_or_raw. rewrite has_column_get, getitem_get.
  destruct (get df c) as [s|] eqn:Ec.
  - rewrite bool_decide_true by eauto. by rewrite setitem_id.
  - rewrite bool_decide_false by (by intros [? ?]). by destruct (get df "raw").
Qed.

Lemma assign_eq df c key (g : list (value float) → list (value float)) :
  match get df c with
  | Some s => Ok (setitem df c (g s))
  | None =>
      raw ← getitem df "raw";
      Ok (setitem df c (g ((λ x, get_raw x key) <$> raw)))
  end =
  match column_or_raw df c key with
  | Some s => Ok (setitem df c (g s))
  | None => Raise (KeyError "raw")
  end.
Proof.
  unfold column_or_raw. rewrite getitem_get.
  destruct (get df c); [done|]. by destruct (get df "raw").
Qed.

Lemma column_or_raw_setitem df c c' key (s : list (value float)) :
  c' ≠ c → c' ≠ "raw" →
  column_or_raw (setitem df c' s) c key = column_or_raw df c key.
Proof. intros ? ?. unfold column_or_raw. by rewrite !get_setitem_ne by done. Qed.

Lemma column_or_raw_present df c key (s : list (value float)) :
  get df c = Some s → column_or_raw df c key = Some s.
Proof. unfold column_or_raw. by intros ->. Qed.
End BackfillFacts.

Ltac raw_step :=
  first [ rewrite column_or_raw_setitem by (apply String.eqb_neq; reflexivity) ].

Section RegistrationProps.
Context (float : Type) (str_to_float : pystr → option float).
Abbreviation clean_reg := (clean_registrations float str_to_float).
Abbreviation to_num := (to_numeric float str_to_float).
Implicit Types (df reg out : DataFrame float) (c key : string).

(** [clean_registrations] as the seven columns it settles, in order. *)
Lemma clean_registrations_columns_eq reg :
  clean_reg reg =
  (sido ← need_raw (column_or_raw reg "sido" "CTPV");
   sigungu ← need_raw (column_or_raw reg "sigungu" "SGG");
   birthYear ← need_raw (column_or_raw reg "birthYear" "BRDT");
   rfidType ← need_raw (column_or_raw reg "rfidType" "RFID_SE");
   kind ← need_raw (column_or_raw reg "kind" "LVSTCK_KND");
   species ← need_raw (column_or_raw reg "species" "SPCS");
   count ← need_raw (column_or_raw reg "count" "CNT");
   Ok (setitem (setitem (setitem (setitem (setitem (setitem (setitem reg
         "sido" sido) "sigungu" sigungu) "birthYear" (to_num <$> birthYear))
         "rfidType" rfidType) "kind" kind) "species" species)
         "count" (to_num <$> count))).
Proof.
  unfold clean_registrations.
  rewrite backfill_eq.
  destruct (column_or_raw reg "sido" "CTPV") as [sido|]; [|done].
  cbn [need_raw mbind result_bind]. rewrite backfill_eq. repeat raw_step.
  destruct (column_or_raw reg "sigungu" "SGG") as [sigungu|]; [|done].
  cbn [need_raw mbind result_bind]. rewrite (assign_eq _ _ "birthYear" "BRDT" (fmap to_num)). repeat raw_step.
  destruct (column_or_raw reg "birthYear" "BRDT") as [birthYear|]; [|done].
  cbn [need_raw mbind result_bind]. rewrite backfill_eq. repeat raw_step.
  destruct (column_or_raw reg "rfidType" "RFID_SE") as [rfidType|]; [|done].
  cbn [need_raw mbind result_bind]. rewrite backfill_eq. repeat raw_step.
  destruct (column_or_raw reg "kind" "LVSTCK_KND") as [kind|]; [|done].
  cbn [need_raw mbind result_bind]. rewrite backfill_eq. repeat raw_step.
  destruct (column_or_raw reg "species" "SPCS") as [species|]; [|done].
  cbn [need_raw mbind result_bind]. rewrite (assign_eq _ _ "count" "CNT" (fmap to_num)). repeat raw_step.
  destruct (column_or_raw reg "count" "CNT") as [count|]; [|done].
  done.
Qed.

Lemma to_numeric_idem (v : value float) : to_num (to_num v) = to_num v.
Proof. destruct v as [k|s|z|x|d t|kv]; simpl; try done. by destruct (str_to_float s). Qed.

(** X9.  What [clean_registrations] does to each column.  A canonical
    column the table has is kept (sido, sigungu, rfidType, kind, species) or
    coerced to numbers in place (birthYear, count); one it lacks is read from
    the raw payload under its key; every other column is untouched and the
    rows are the same. *)
Theorem clean_registrations_columns (reg out : DataFrame float) :
  clean_reg reg = Ok out →
  nrows out = nrows reg
  ∧ (∀ c key, (c, key) ∈ [("sido", "CTPV"); ("sigungu", "SGG"); ("rfidType", "RFID_SE");
                           ("kind", "LVSTCK_KND"); ("species", "SPCS")] →
       (∀ s, get reg c = Some s → get out c = Some s)
       ∧ (get reg c = None →
          ∃ raw, get reg "raw" = Some raw
                 ∧ get out c = Some ((λ x, get_raw x key) <$> raw)))
  ∧ (∀ c key, (c, key) ∈ [("birthYear", "BRDT"); ("count", "CNT")] →
       (∀ s, get reg c = Some s → get out c = Some (to_num <$> s))
       ∧ (get reg c = None →
          ∃ raw, get reg "raw" = Some raw
                 ∧ get out c = Some (to_num <$> ((λ x, get_raw x key) <$> raw))))
  ∧ (∀ c, c ∉ ["sido"; "sigungu"; "birthYear"; "rfidType"; "kind"; "species"; "count"] →
       get out c = get reg c).
Proof.
  rewrite clean_registrations_columns_eq.
  intros (sido & Hsido & (sigungu & Hsigungu & (birthYear & HbirthYear & (rfidType & HrfidType
    & (kind & Hkind & (species & Hspecies & (count & Hcount & [= <-])%bind_Ok)%bind_Ok)%bind_Ok
    )%bind_Ok)%bind_Ok)%bind_Ok)%bind_Ok.
  assert (∀ c key s, need_raw (column_or_raw reg c key) = Ok s →
            (∀ s', get reg c = Some s' → s = s')
            ∧ (get reg c = None →
               ∃ raw, get reg "raw" = Some raw ∧ s = (λ x, get_raw x key) <$> raw)) as Hcol.
  { intros c key s. unfold column_or_raw.
    destruct (get reg c) as [s0|]; [intros [= <-]|].
    - split; [by intros ? [= <-]|done].
    - destruct (get reg "raw") as [raw|]; [intros [= <-]|done]. split; [done|eauto]. }
  split_and!.
  - done.
  - intros c key Hc. rewrite !elem_of_cons, elem_of_nil in Hc.
    destruct Hc as [[= -> ->]|[[= -> ->]|[[= -> ->]|[[= -> ->]|[[= -> ->]|[]]]]]];
      frame_simpl;
      match goal with H : need_raw (column_or_raw reg ?c _) = Ok ?s |- context [get reg ?c] =>
        destruct (Hcol _ _ _ H) as [Hp Ha] end;
      (split; [by intros s' <-%Hp| intros (raw & ? & ->)%Ha; eauto]).
  - intros c key Hc. rewrite !elem_of_cons, elem_of_nil in Hc.
    destruct Hc as [[= -> ->]|[[= -> ->]|[]]];
      frame_simpl;
      match goal with H : need_raw (column_or_raw reg ?c _) = Ok ?s |- context [get reg ?c] =>
        destruct (Hcol _ _ _ H) as [Hp Ha] end;
      (split; [by intros s' <-%Hp| intros (raw & ? & ->)%Ha; eauto]).
  - intros c Hc. rewrite !not_elem_of_cons in Hc. destruct_and!. by frame_simpl.
Qed.

(** X10.  When [clean_registrations] returns: always when the table has a
    [raw] column, and also without one when it has all seven canonical
    columns; without [raw] and with a canonical column missing it raises
    [KeyError] for "raw". *)
Theorem clean_registrations_required (reg : DataFrame float) :
  (is_Some (get reg "raw") → ∃ out, clean_reg reg = Ok out)
  ∧ (Forall (λ c, is_Some (get reg c))
       ["sido"; "sigungu"; "birthYear"; "rfidType"; "kind"; "species"; "count"] →
     ∃ out, clean_reg reg = Ok out)
  ∧ (get reg "raw" = None →
     Exists (λ c, get reg c = None)
       ["sido"; "sigungu"; "birthYear"; "rfidType"; "kind"; "species"; "count"] →
     clean_reg reg = Raise (KeyError "raw")).
Proof.
  rewrite clean_registrations_columns_eq.
  assert (∀ c key, is_Some (get reg "raw") ∨ is_Some (get reg c) →
            ∃ s, column_or_raw reg c key = Some s) as Hsome.
  { intros c key H. unfold column_or_raw. destruct (get reg c); [eauto|].
    destruct H as [[raw ->]|[? ?]]; [eauto|done]. }
  assert (∀ c key, get reg "raw" = None →
            column_or_raw reg c key = get reg c) as Hnone.
  { intros c key H. unfold column_or_raw. rewrite H. by destruct (get reg c). }
  split_and!.
  - intros Hraw.
    repeat match goal with |- context [column_or_raw reg ?c ?k] =>
      destruct (Hsome c k) as [? ->]; [by left|]; cbn [need_raw mbind result_bind] end.
    eauto.
  - intros Hall. rewrite !Forall_cons in Hall. destruct_and!.
    repeat match goal with |- context [column_or_raw reg ?c ?k] =>
      destruct (Hsome c k) as [? ->]; [by right|]; cbn [need_raw mbind result_bind] end.
    eauto.
  - intros Hraw Hex. rewrite !Hnone by done.
    rewrite !Exists_cons, Exists_nil in Hex.
    repeat match goal with |- context [need_raw (get reg ?c)] =>
      destruct (get reg c) eqn:?; cbn [need_raw mbind result_bind]; [|done] end.
    by destruct_or!.
Qed.

(** X11.  Cleaning a cleaned registration table again returns the same
    table. *)
Theorem clean_registrations_idempotent (reg out : DataFrame float) :
  clean_reg reg = Ok out → clean_reg out = Ok out.
Proof.
  rewrite clean_registrations_columns_eq.
  intros (sido & Hsido & (sigungu & Hsigungu & (birthYear & HbirthYear & (rfidType & HrfidType
    & (kind & Hkind & (species & Hspecies & (count & Hcount & [= <-])%bind_Ok)%bind_Ok)%bind_Ok
    )%bind_Ok)%bind_Ok)%bind_Ok)%bind_Ok.
  rewrite clean_registrations_columns_eq.
  do 7 (erewrite column_or_raw_present by (by frame_simpl)).
  cbn [need_raw mbind result_bind]. f_equal.
  apply DataFrame_eq; [done|]. intros c.
  destruct (decide (c = "count")) as [->|?]; [frame_simpl; f_equal;
    rewrite <- list_fmap_compose; apply list_fmap_ext; intros; apply to_numeric_idem|].
  destruct (decide (c = "species")) as [->|?]; [by frame_simpl|].
  destruct (decide (c = "kind")) as [->|?]; [by frame_simpl|].
  destruct (decide (c = "rfidType")) as [->|?]; [by frame_simpl|].
  destruct (decide (c = "birthYear")) as [->|?]; [frame_simpl; f_equal;
    rewrite <- list_fmap_compose; apply list_fmap_ext; intros; apply to_numeric_idem|].
  destruct (decide (c = "sigungu")) as [->|?]; [by frame_simpl|].
  destruct (decide (c = "sido")) as [->|?]; [by frame_simpl|].
  by frame_simpl.
Qed.
End RegistrationProps.

Section ShelterProps.
Context (float : Type) (py_str : value float → pystr).
Context (to_datetime_infer : list (value float) → list (value float)).
Abbreviation clean_sh := (clean_shelters float py_str to_datetime_infer).
Abbreviation as_str := (astype_str float py_str).
Implicit Types (sh df out : DataFrame float) (c key : string).

(** [clean_shelters] as its checks, in the order they fail, and the table it
    returns. *)
Lemma clean_shelters_checks sh :
  clean_sh sh =
  (careAddr ← attr (get sh "careAddr");
   _ ← require (negb (bool_decide (careAddr = []))) (KeyError "sido");
   lat ← need_raw (column_or_raw sh "lat" "lat");
   lng ← need_raw (column_or_raw sh "lng" "lng");
   openDate ← need_raw (column_or_raw sh "openDate" "dsignationDate");
   Ok (setitem (setitem (setitem (setitem (setitem (setitem sh
         "careAddr" (as_str <$> careAddr))
         "sido" (fst <$> (split_addr <$> (as_str <$> careAddr))))
         "sigungu" (snd <$> (split_addr <$> (as_str <$> careAddr))))
         "lat" lat) "lng" lng) "openDate" (to_datetime_infer openDate))).
Proof.
  unfold clean_shelters.
  destruct (get sh "careAddr") as [careAddr|] eqn:Ec; [|done].
  cbn [attr mbind result_bind]. rewrite getitem_get. frame_simpl.
  cbn [mbind result_bind].
  assert (bool_decide (as_str <$> careAddr = []) = bool_decide (careAddr = [])) as ->.
  { apply bool_decide_ext. split; [apply fmap_nil_inv|by intros ->]. }
  destruct (negb (bool_decide (careAddr = []))); [|done].
  cbn [require mbind result_bind].
  rewrite backfill_eq. repeat raw_step.
  destruct (column_or_raw sh "lat" "lat") as [lat|]; [|done].
  cbn [need_raw mbind result_bind]. rewrite backfill_eq. repeat raw_step.
  destruct (column_or_raw sh "lng" "lng") as [lng|]; [|done].
  cbn [need_raw mbind result_bind].
  rewrite (assign_eq _ _ "openDate" "dsignationDate" to_datetime_infer).
  repeat raw_step.
  destruct (column_or_raw sh "openDate" "dsignationDate") as [openDate|]; [|done].
  done.
Qed.

Lemma astype_str_idem (v : value float) : as_str (as_str v) = as_str v.
Proof. by destruct v. Qed.

(** The columns a cleaned shelter table has, and those it keeps. *)
Lemma clean_shelters_frame sh out :
  clean_sh sh = Ok out →
  Forall (λ c, is_Some (get out c)) ["careAddr"; "sido"; "sigungu"; "lat"; "lng"; "openDate"]
  ∧ (∀ c, c ∉ ["careAddr"; "sido"; "sigungu"; "lat"; "lng"; "openDate"] →
       get out c = get sh c).
Proof.
  rewrite clean_shelters_checks.
  intros (careAddr & HcareAddr & (? & _ & (lat & Hlat & (lng & Hlng & (openDate & HopenDate
    & [= <-])%bind_Ok)%bind_Ok)%bind_Ok)%bind_Ok)%bind_Ok.
  split.
  - repeat (constructor; [by frame_simpl; eauto|]). constructor.
  - intros c Hc. rewrite !not_elem_of_cons in Hc. destruct_and!. by frame_simpl.
Qed.

(** X12.  When [clean_shelters] returns.  Without a [careAddr] column it
    raises [AttributeError]; on a table of no rows it raises [KeyError] for
    the label "sido"; otherwise it raises [KeyError] for "raw" when the table
    has no [raw] column and lacks one of lat, lng, openDate, and returns a
    table when it has [raw] or all three. *)
Theorem clean_shelters_required (sh : DataFrame float) :
  (get sh "careAddr" = None → clean_sh sh = Raise AttributeError)
  ∧ (get sh "careAddr" = Some [] → clean_sh sh = Raise (KeyError "sido"))
  ∧ (∀ careAddr, get sh "careAddr" = Some careAddr → careAddr ≠ [] →
       (get sh "raw" = None →
        Exists (λ c, get sh c = None) ["lat"; "lng"; "openDate"] →
        clean_sh sh = Raise (KeyError "raw"))
       ∧ (is_Some (get sh "raw")
          ∨ Forall (λ c, is_Some (get sh c)) ["lat"; "lng"; "openDate"] →
          ∃ out, clean_sh sh = Ok out)).
Proof.
  rewrite clean_shelters_checks. split_and!.
  - by intros ->.
  - by intros ->.
  - intros careAddr -> Hne. cbn [attr mbind result_bind].
    rewrite bool_decide_false by done. cbn [negb require mbind result_bind]. split.
    + intros Hraw Hex.
      assert (∀ c key, column_or_raw sh c key = get sh c) as Hnone.
      { intros c key. unfold column_or_raw. rewrite Hraw. by destruct (get sh c). }
      rewrite !Hnone. rewrite !Exists_cons, Exists_nil in Hex.
      repeat match goal with |- context [need_raw (get sh ?c)] =>
        destruct (get sh c) eqn:?; cbn [need_raw mbind result_bind]; [|done] end.
      by destruct_or!.
    + intros H.
      assert (∀ c key, c ∈ ["lat"; "lng"; "openDate"] →
                ∃ s, column_or_raw sh c key = Some s) as Hsome.
      { intros c key Hc. unfold column_or_raw. destruct (get sh c) eqn:Ec; [eauto|].
        destruct H as [[raw ->]|Hall]; [eauto|].
        rewrite Forall_forall in Hall. destruct (Hall c Hc) as [? ?]. congruence. }
      repeat match goal with |- context [column_or_raw sh ?c ?k] =>
        destruct (Hsome c k) as [? ->]; [(rewrite !elem_of_cons; tauto)|]; cbn [need_raw mbind result_bind] end.
      eauto.
Qed.

(** X13.  The columns of a cleaned shelter table.  In every row sido and
    sigungu are the two fields the address splitter gives for the cleaned
    address of that row; lat and lng are kept when the table has them and
    read from the raw payload otherwise; openDate is parsed from the column,
    or from the raw designation date when the column is absent; every other
    column is untouched and the rows are the same. *)
Theorem clean_shelters_columns (sh out : DataFrame float) :
  clean_sh sh = Ok out →
  nrows out = nrows sh
  ∧ (∀ i : nat, cell out "sido" i = (λ a, (split_addr a).1) <$> cell out "careAddr" i)
  ∧ (∀ i : nat, cell out "sigungu" i = (λ a, (split_addr a).2) <$> cell out "careAddr" i)
  ∧ (∀ c, c ∈ ["lat"; "lng"] →
       (∀ s, get sh c = Some s → get out c = Some s)
       ∧ (get sh c = None →
          ∃ raw, get sh "raw" = Some raw ∧ get out c = Some ((λ x, get_raw x c) <$> raw)))
  ∧ (∀ s, get sh "openDate" = Some s → get out "openDate" = Some (to_datetime_infer s))
  ∧ (get sh "openDate" = None →
     ∃ raw, get sh "raw" = Some raw
            ∧ get out "openDate"
              = Some (to_datetime_infer ((λ x, get_raw x "dsignationDate") <$> raw)))
  ∧ (∀ c, c ∉ ["careAddr"; "sido"; "sigungu"; "lat"; "lng"; "openDate"] →
       get out c = get sh c).
Proof.
  rewrite clean_shelters_checks.
  intros (careAddr & HcareAddr & (? & _ & (lat & Hlat & (lng & Hlng & (openDate & HopenDate
    & [= <-])%bind_Ok)%bind_Ok)%bind_Ok)%bind_Ok)%bind_Ok.
  assert (∀ c key s, need_raw (column_or_raw sh c key) = Ok s →
            (∀ s', get sh c = Some s' → s = s')
            ∧ (get sh c = None →
               ∃ raw, get sh "raw" = Some raw ∧ s = (λ x, get_raw x key) <$> raw)) as Hcol.
  { intros c key s. unfold column_or_raw.
    destruct (get sh c) as [s0|]; [intros [= <-]|].
    - split; [by intros ? [= <-]|done].
    - destruct (get sh "raw") as [raw|]; [intros [= <-]|done]. split; [done|eauto]. }
  split_and!.
  - done.
  - intros i. erewrite !cell_get by (by frame_simpl).
    rewrite !list_lookup_fmap. by destruct (careAddr !! i).
  - intros i. erewrite !cell_get by (by frame_simpl).
    rewrite !list_lookup_fmap. by destruct (careAddr !! i).
  - intros c Hc. rewrite !elem_of_cons, elem_of_nil in Hc.
    destruct Hc as [->|[->|[]]]; frame_simpl;
      match goal with H : need_raw (column_or_raw sh ?c _) = Ok ?s |- context [get sh ?c] =>
        destruct (Hcol _ _ _ H) as [Hp Ha] end;
      (split; [by intros s' <-%Hp| intros (raw & ? & ->)%Ha; eauto]).
  - intros s Hs. frame_simpl. destruct (Hcol _ _ _ HopenDate) as [Hp _].
    by rewrite (Hp s Hs).
  - intros Hs. frame_simpl. destruct (Hcol _ _ _ HopenDate) as [_ Ha].
    destruct (Ha Hs) as (raw & ? & ->). eauto.
  - intros c Hc. rewrite !not_elem_of_cons in Hc. destruct_and!. by frame_simpl.
Qed.

(** X14.  Cleaning a cleaned shelter table again returns the same table,
    provided the format-free date parser leaves parsed dates as they are. *)
Theorem clean_shelters_idempotent (sh out : DataFrame float) :
  (∀ s, to_datetime_infer (to_datetime_infer s) = to_datetime_infer s) →
  clean_sh sh = Ok out → clean_sh out = Ok out.
Proof.
  intros Hinfer. rewrite clean_shelters_checks.
  intros (careAddr & HcareAddr & (? & Hne & (lat & Hlat & (lng & Hlng & (openDate & HopenDate
    & [= <-])%bind_Ok)%bind_Ok)%bind_Ok)%bind_Ok)%bind_Ok.
  destruct (get sh "careAddr") as [careAddr'|]; [|done]. injection HcareAddr as ->.
  rewrite clean_shelters_checks. frame_simpl. cbn [attr mbind result_bind].
  assert (bool_decide (as_str <$> careAddr = []) = bool_decide (careAddr = [])) as ->.
  { apply bool_decide_ext. split; [apply fmap_nil_inv|by intros ->]. }
  destruct (negb (bool_decide (careAddr = []))); [|done].
  cbn [require mbind result_bind].
  do 3 (erewrite column_or_raw_present by (by frame_simpl)).
  cbn [need_raw mbind result_bind]. f_equal.
  assert (as_str <$> (as_str <$> careAddr) = as_str <$> careAddr) as ->.
  { rewrite <- list_fmap_compose. apply list_fmap_ext. intros; apply astype_str_idem. }
  apply DataFrame_eq; [done|]. intros c.
  destruct (decide (c = "openDate")) as [->|?]; [frame_simpl; by rewrite Hinfer|].
  destruct (decide (c = "lng")) as [->|?]; [by frame_simpl|].
  destruct (decide (c = "lat")) as [->|?]; [by frame_simpl|].
  destruct (decide (c = "sigungu")) as [->|?]; [by frame_simpl|].
  destruct (decide (c = "sido")) as [->|?]; [by frame_simpl|].
  destruct (decide (c = "careAddr")) as [->|?]; [by frame_simpl|].
  by frame_simpl.
Qed.
End ShelterProps.

(** ** Joiner: rows and checks *)

Section JoinProps.
Context (float : Type).
Context (merge_keys_ok : list (value float) → list (value float) → bool).
Context (key_eqb_other : value float → value float → bool).
Abbreviation matches_ := (matches float key_eqb_other).
Abbreviation rows_of_ := (rows_of float key_eqb_other).
Abbreviation join_rows_ := (join_rows float key_eqb_other).
Abbreviation key_match_ := (key_match float key_eqb_other).
Abbreviation merge_ := (merge_abandonments_with_shelters float merge_keys_ok key_eqb_other).
Implicit Types (lk rk s : list (value float)) (ps : list (nat * option nat)) (k : value float).

Lemma elem_of_matches k rk (j : nat) :
  j ∈ matches_ k rk ↔ ∃ v, rk !! j = Some v ∧ key_match_ k v = true.
Proof.
  unfold matches. rewrite list_elem_of_fmap. split.
  - intros ([j' v] & -> & [Hm Hin]%list_elem_of_filter).
    apply elem_of_lookup_imap in Hin as (i & x & [= -> ->] & Hx). eauto.
  - intros (v & Hv & Hm). exists (j, v). split; [done|].
    apply list_elem_of_filter. split; [done|].
    apply elem_of_lookup_imap. eauto.
Qed.

Lemma elem_of_join_rows lk rk p :
  p ∈ join_rows_ lk rk ↔ ∃ (i : nat) k, lk !! i = Some k ∧ p ∈ rows_of_ rk i k.
Proof.
  unfold join_rows. rewrite list_elem_of_join. split.
  - intros (l & Hp & (i & k & -> & Hk)%elem_of_lookup_imap). eauto.
  - intros (i & k & Hk & Hp). eexists. split; [done|].
    apply elem_of_lookup_imap. eauto.
Qed.

(** X16.  The rows of the join pair an event with exactly the shelter rows
    of a matching key: event row [i] appears with shelter row [j] if and only
    if their keys match, and alone if and only if no shelter key matches;
    text keys match when they are equal. *)
Theorem join_rows_keys lk rk (i : nat) :
  (∀ j : nat, (i, Some j) ∈ join_rows float key_eqb_other lk rk ↔
      ∃ k v, lk !! i = Some k ∧ rk !! j = Some v ∧ key_match float key_eqb_other k v = true)
  ∧ ((i, None) ∈ join_rows float key_eqb_other lk rk ↔
      ∃ k, lk !! i = Some k ∧ ∀ (j : nat) v, rk !! j = Some v → key_match float key_eqb_other k v = false)
  ∧ (∀ (j : nat) (t u : pystr),
       lk !! i = Some (Str t) → rk !! j = Some (Str u) →
       ((i, Some j) ∈ join_rows float key_eqb_other lk rk ↔ t = u)).
Proof.
  assert (∀ j : nat, (i, Some j) ∈ join_rows_ lk rk ↔
      ∃ k v, lk !! i = Some k ∧ rk !! j = Some v ∧ key_match_ k v = true) as Hsome.
  { intros j. rewrite elem_of_join_rows. split.
    - intros (i' & k & Hk & Hp). pose proof (rows_of_fst _ _ _ _ _ _ Hp) as Hi.
      simpl in Hi. subst i'. exists k.
      assert (j ∈ matches_ k rk) as (v & ? & ?)%elem_of_matches; [|eauto].
      revert Hp. unfold rows_of. destruct (matches_ k rk) as [|j0 js] eqn:E.
      + by intros [=]%list_elem_of_singleton.
      + by intros (j' & [= ->] & ?)%list_elem_of_fmap.
    - intros (k & v & Hk & Hv & Hm). exists i, k. split; [done|].
      assert (j ∈ matches_ k rk) as Hj by (apply elem_of_matches; eauto).
      unfold rows_of. destruct (matches_ k rk) as [|j0 js] eqn:E.
      + by apply elem_of_nil in Hj.
      + apply list_elem_of_fmap. eauto. }
  split_and!; [done|..].
  - rewrite elem_of_join_rows. split.
    + intros (i' & k & Hk & Hp). pose proof (rows_of_fst _ _ _ _ _ _ Hp) as Hi.
      simpl in Hi. subst i'. exists k. split; [done|]. intros j v Hv.
      destruct (key_match_ k v) eqn:Hm; [|done].
      assert (j ∈ matches_ k rk) as Hj by (apply elem_of_matches; eauto).
      revert Hp. unfold rows_of. destruct (matches_ k rk) as [|j0 js] eqn:E.
      * by apply elem_of_nil in Hj.
      * by intros (j' & [=] & ?)%list_elem_of_fmap.
    + intros (k & Hk & Hno). exists i, k. split; [done|].
      unfold rows_of. destruct (matches_ k rk) as [|j0 js] eqn:E; [by left|].
      assert (j0 ∈ matches_ k rk) as (v & Hv & Hm)%elem_of_matches by (rewrite E; by left).
      by rewrite (Hno _ _ Hv) in Hm.
  - intros j t u Ht Hu. rewrite Hsome. split.
    + intros (k & v & Hk & Hv & Hm). simplify_eq. by apply bool_decide_eq_true in Hm.
    + intros ->. exists (Str u), (Str u). split_and!; [done..|]. by apply bool_decide_eq_true.
Qed.

Lemma select_present (df : DataFrame float) (cs : list string) :
  Forall (λ c, is_Some (get df c)) cs →
  select float df cs = Ok ((λ c, (c, default [] (get df c))) <$> cs).
Proof.
  induction 1 as [|c cs [s Hs] _ IH]; [done|].
  cbn [select fmap list_fmap]. rewrite getitem_get, Hs, IH. done.
Qed.

Lemma select_missing (df : DataFrame float) (cs1 : list string) c (cs2 : list string) :
  Forall (λ c, is_Some (get df c)) cs1 → get df c = None →
  select float df (cs1 ++ c :: cs2) = Raise (KeyError c).
Proof.
  intros H Hc. induction H as [|c1 cs1 [s Hs] _ IH]; cbn [select app].
  - by rewrite getitem_get, Hc.
  - by rewrite getitem_get, Hs, IH.
Qed.

(** The labels of the six shelter columns stay apart, whichever of them the
    event table has. *)
Lemma shelter_labels_NoDup (ab : DataFrame float) :
  NoDup ((λ c : string, if has_column ab c then c +:+ "_shelter" else c)
         <$> ["lat"; "lng"; "careAddr"; "divisionNm"; "sido"; "sigungu"]).
Proof.
  cbn [fmap list_fmap].
  destruct (has_column ab "lat"), (has_column ab "lng"), (has_column ab "careAddr"),
    (has_column ab "divisionNm"), (has_column ab "sido"), (has_column ab "sigungu");
    apply (bool_decide_unpack _); vm_compute; exact I.
Qed.

(** [merge_abandonments_with_shelters] on a shelter table that has the seven
    columns: its checks, and the table it returns. *)
Lemma merge_checks (ab sh : DataFrame float) rk lat lng careAddr divisionNm sido sigungu :
  get sh "careNm" = Some rk → get sh "lat" = Some lat → get sh "lng" = Some lng →
  get sh "careAddr" = Some careAddr → get sh "divisionNm" = Some divisionNm →
  get sh "sido" = Some sido → get sh "sigungu" = Some sigungu →
  merge_ ab sh =
  (lk ← getitem ab "careNm";
   _ ← require (merge_keys_ok lk rk) ValueError;
   Ok (map_to_list (take_left (join_rows_ lk rk) <$> columns ab)
       ++ ((λ p, (if has_column ab p.1 then p.1 +:+ "_shelter" else p.1,
                  take_right (join_rows_ lk rk) p.2))
           <$> [("lat", lat); ("lng", lng); ("careAddr", careAddr);
                ("divisionNm", divisionNm); ("sido", sido); ("sigungu", sigungu)]))).
Proof.
  intros H1 H2 H3 H4 H5 H6 H7. unfold merge_abandonments_with_shelters.
  rewrite select_present by (unfold shelter_columns; repeat constructor; eauto).
  unfold shelter_columns. cbn [fmap list_fmap]. rewrite H1, H2, H3, H4, H5, H6, H7.
  cbn [default mbind result_bind]. unfold merge_left.
  destruct (getitem ab "careNm") as [lk|]; [|done]. cbn [mbind result_bind].
  match goal with |- context [list_find ?P (?x :: ?l)] =>
    assert (list_find P (x :: l) = Some (0%nat, x)) as -> by reflexivity end.
  match goal with |- context [filter ?P ?l] =>
    assert (filter P l = tail l) as -> by reflexivity end.
  cbn [mbind result_bind tail].
  unfold require, id. destruct (merge_keys_ok lk rk); cbn [mbind result_bind]; [|done].
  rewrite bool_decide_true; [done|].
  rewrite <- list_fmap_compose. apply (shelter_labels_NoDup ab).
Qed.


Lemma join_rows_length lk rk : (length lk ≤ length (join_rows_ lk rk))%nat.
Proof.
  induction lk as [|k lk IH]; [done|].
  rewrite join_rows_cons, length_app, length_fmap, rows_of_length. simpl. lia.
Qed.

Lemma matches_NoDup_rows k rk : NoDup (matches_ k rk).
Proof.
  unfold matches.
  assert ((imap pair rk).*1 = seq 0 (length rk)) as Hfst.
  { rewrite fmap_imap.
    rewrite (imap_ext _ (λ (j : nat) (_ : value float), j)) by done.
    by rewrite (imap_seq_0 rk (λ j, j)), list_fmap_id. }
  apply NoDup_fmap_2_strong.
  - intros [i x] [j y] [_ Hx]%list_elem_of_filter [_ Hy]%list_elem_of_filter. simpl. intros ->.
    apply elem_of_lookup_imap in Hx as (? & ? & [= <- <-] & Hx).
    apply elem_of_lookup_imap in Hy as (? & ? & [= <- <-] & Hy). congruence.
  - eapply sublist_NoDup; [|apply sublist_filter].
    apply (NoDup_fmap_1 fst). rewrite Hfst. apply NoDup_seq.
Qed.

Lemma rows_of_NoDup rk (i : nat) k : NoDup (rows_of_ rk i k).
Proof.
  unfold rows_of. destruct (matches_ k rk) as [|j js] eqn:E.
  - apply NoDup_singleton.
  - rewrite <- E. apply NoDup_fmap_2; [|apply matches_NoDup_rows].
    by intros ?? [=].
Qed.

(** X17.  Number and order of the joined rows: at least as many as there
    are events, none repeated, in the order of the events, every one from an
    event of the table; with no shelter rows, one row per event and none
    with a shelter. *)
Theorem join_rows_order lk rk :
  (length lk ≤ length (join_rows float key_eqb_other lk rk))%nat
  ∧ NoDup (join_rows float key_eqb_other lk rk)
  ∧ (∀ (n m i j : nat) o o',
       (n ≤ m)%nat → join_rows float key_eqb_other lk rk !! n = Some (i, o) →
       join_rows float key_eqb_other lk rk !! m = Some (j, o') → (i ≤ j)%nat)
  ∧ (∀ (i : nat) o, (i, o) ∈ join_rows float key_eqb_other lk rk → (i < length lk)%nat)
  ∧ (rk = [] → join_rows float key_eqb_other lk rk = (λ i, (i, None)) <$> seq 0 (length lk)).
Proof.
  split_and!.
  - apply join_rows_length.
  - induction lk as [|k lk IH]; [constructor|].
    rewrite join_rows_cons. apply NoDup_app. split_and!.
    + apply rows_of_NoDup.
    + intros p Hp%rows_of_fst ([i o] & -> & _)%list_elem_of_fmap. done.
    + apply NoDup_fmap_2; [|done]. by intros [] [] [= -> ->].
  - induction lk as [|k lk IH]; [done|].
    intros n m i j o o' Hnm. rewrite join_rows_cons.
    destruct (decide (n < length (rows_of_ rk 0 k))%nat) as [Hn|Hn].
    + rewrite (lookup_app_l _ _ n) by done.
      intros Hi%list_elem_of_lookup_2%rows_of_fst _. simpl in Hi. lia.
    + rewrite !lookup_app_r by lia. rewrite !list_lookup_fmap.
      destruct (join_rows_ lk rk !! (n - _)%nat) as [[i0 o0]|] eqn:En; [|done].
      destruct (join_rows_ lk rk !! (m - _)%nat) as [[j0 o0']|] eqn:Em; [|done].
      intros [= <- <-] [= <- <-].
      apply le_n_S. eapply (IH _ _ _ _ _ _ _ En Em).
  - intros i o (i' & k & Hk & Hp%rows_of_fst)%elem_of_join_rows. simpl in Hp. subst.
    by eapply lookup_lt_Some.
  - intros ->. induction lk as [|k lk IH]; [done|].
    rewrite join_rows_cons, IH. cbn [length seq fmap list_fmap]. f_equal.
    rewrite <- fmap_S_seq, <- !list_fmap_compose. by apply list_fmap_ext.
Unshelve. lia.
Qed.
End JoinProps.

(** ** The pipeline *)

Section MainFacts.
Context (float : Type).
Context (str_to_float : pystr → option float) (float_rsub : Z → float → float).
Context (current_year : Z) (in_bounds : date → bool) (isdecimal : N → bool).
Context (py_str : value float → pystr).
Context (to_datetime_infer : list (value float) → list (value float)).
Context (str_accessor_ok : list (value float) → bool).
Context (merge_keys_ok : list (value float) → list (value float) → bool).
Context (key_eqb_other : value float → value float → bool).

Abbreviation clean_ab := (clean_abandonments float str_to_float float_rsub current_year
  in_bounds isdecimal py_str to_datetime_infer str_accessor_ok).
Abbreviation clean_reg := (clean_registrations float str_to_float).
Abbreviation clean_sh := (clean_shelters float py_str to_datetime_infer).
Abbreviation merge_ := (merge_abandonments_with_shelters float merge_keys_ok key_eqb_other).
Abbreviation main_ := (main_tables float str_to_float float_rsub current_year
  in_bounds isdecimal py_str to_datetime_infer str_accessor_ok merge_keys_ok key_eqb_other).
Abbreviation join_rows_ := (join_rows float key_eqb_other).

End MainFacts.

(** ** Analyzer: required columns *)

Section AnalyzerProps.
Context (float : Type).
Implicit Types (ab df : DataFrame float) (c : string).

Lemma report_bind_result {A B} (m : report float A) (k : A → report float B) :
  (report_bind float m k).2 = m.2 ≫= λ a, (k a).2.
Proof. unfold report_bind. by destruct m.2. Qed.

(** Reading the columns [cs] goes through, or raises [KeyError] for one
    the table lacks. *)
Lemma cols_cases df (cs : list string) :
  (Forall (λ c, is_Some (get df c)) cs ∧ ∃ ss, (cols float df cs).2 = Ok ss)
  ∨ (¬ Forall (λ c, is_Some (get df c)) cs
     ∧ ∃ c, c ∈ cs ∧ get df c = None ∧ (cols float df cs).2 = Raise (KeyError c)).
Proof.
  induction cs as [|c cs IH].
  - left. split; [constructor|]. by exists [].
  - cbn [cols]. rewrite !report_bind_result. cbn [col snd]. rewrite getitem_get.
    destruct (get df c) as [s|] eqn:Ec; cbn [mbind result_bind].
    + rewrite report_bind_result.
      destruct IH as [[Hall [ss ->]]|[Hno (c' & Hc' & Hn & ->)]]; cbn [mbind result_bind snd].
      * left. split; [constructor; eauto|eauto].
      * right. split; [by intros [_ ?]%Forall_cons|]. exists c'. split_and!; [by right|done..].
    + right. split; [intros [[? ?] _]%Forall_cons; congruence|]. exists c. split_and!; [by left|done..].
Qed.

Lemma print_table_result df (what : string) (cs : list string) :
  (print_table float df what cs).2 = (cols float df cs).2 ≫= λ _, Ok ().
Proof. unfold print_table. rewrite report_bind_result. by destruct (cols float df cs).2. Qed.

Lemma available_present df (cs : list string) :
  Forall (λ c, is_Some (get df c)) (filter (λ c, has_column df c = true) cs).
Proof.
  apply Forall_forall. intros c [Hc _]%list_elem_of_filter.
  rewrite has_column_get in Hc. by apply bool_decide_eq_true in Hc.
Qed.

Ltac result_of_report :=
  repeat first
    [ rewrite report_bind_result
    | rewrite print_table_result
    | progress cbn [print snd mbind result_bind] ].

(** One read of the routine: go on when it goes through, and close the case
    where it raises. *)
Ltac read_columns :=
  match goal with
  | |- context [(cols float ?df ?cs).2] =>
      destruct (cols_cases df cs) as [[? [? ->]]|[? (? & _ & _ & ->)]];
      cbn [mbind result_bind];
      [| split; [done|];
         rewrite ?Forall_cons, ?Forall_nil in *; tauto ]
  end.

Lemma print_then_fst {B} (o : output float) (k : unit → report float B) :
  (report_bind float (print float o) k).1 = o :: (k ()).1.
Proof. done. Qed.

Lemma analyze_basic_patterns_Ok ab :
  (analyze_basic_patterns float ab).2 = Ok () ↔
  Forall (λ c, is_Some (get ab c)) ["processState"; "species"; "sex"; "neuter"; "age"].
Proof.
  unfold analyze_basic_patterns. result_of_report.
  repeat (read_columns; result_of_report).
  split; [intros _|done]. rewrite ?Forall_cons, ?Forall_nil in *. tauto.
Qed.

Lemma analyze_time_series_Ok ab :
  (analyze_time_series float ab).2 = Ok () ↔
  Forall (λ c, is_Some (get ab c)) ["month"; "uid"; "processState"].
Proof.
  unfold analyze_time_series. result_of_report.
  destruct (has_column ab "year") eqn:Hy; result_of_report.
  - assert (is_Some (get ab "year")) as Hyear.
    { rewrite has_column_get in Hy. by apply bool_decide_eq_true in Hy. }
    repeat (read_columns; result_of_report).
    split; [intros _|done]. rewrite ?Forall_cons, ?Forall_nil in *. tauto.
  - repeat (read_columns; result_of_report).
    split; [intros _|done]. rewrite ?Forall_cons, ?Forall_nil in *. tauto.
Qed.

Lemma analyze_spatial_Ok ab :
  (analyze_spatial float ab).2 = Ok () ↔
  Forall (λ c, is_Some (get ab c)) ["sido"; "sigungu"; "uid"; "processState"].
Proof.
  unfold analyze_spatial. result_of_report.
  repeat (read_columns; result_of_report).
  split; [intros _|done]. rewrite ?Forall_cons, ?Forall_nil in *. tauto.
Qed.

Lemma analyze_correlations_Ok ab :
  (analyze_correlations float ab).2 = Ok () ↔
  Forall (λ c, is_Some (get ab c)) ["sex"; "neuter"; "species"; "season"; "processState"].
Proof.
  unfold analyze_correlations. cbv zeta. result_of_report.
  pose proof (available_present ab ["age"; "weight"; "month"]) as Hav.
  case_bool_decide; result_of_report.
  - destruct (cols_cases ab (filter (λ c, has_column ab c = true) ["age"; "weight"; "month"]))
      as [[_ [? ->]]|[Hno _]]; [|done]. cbn [mbind result_bind].
    repeat (read_columns; result_of_report).
    split; [intros _|done]. rewrite ?Forall_cons, ?Forall_nil in *. tauto.
  - repeat (read_columns; result_of_report).
    split; [intros _|done]. rewrite ?Forall_cons, ?Forall_nil in *. tauto.
Qed.

End AnalyzerProps.

Section AnalyzerOnCleaned.
Context (float : Type).
Context (str_to_float : pystr → option float) (float_rsub : Z → float → float).
Context (current_year : Z) (in_bounds : date → bool) (isdecimal : N → bool).
Context (py_str : value float → pystr).
Context (to_datetime_infer : list (value float) → list (value float)).
Context (str_accessor_ok : list (value float) → bool).
Abbreviation clean_ab := (clean_abandonments float str_to_float float_rsub current_year
  in_bounds isdecimal py_str to_datetime_infer str_accessor_ok).

End AnalyzerOnCleaned.

(** ** Duplicated output *)

Lemma iter_write_flush (n : nat) (ds : list string) (s : stream) :
  stream_flush (foldl (λ s d, Nat.iter n (stream_write d) s) s ds)
  = {| pending := [];
       flushed := flushed s ++ pending s ++ (ds ≫= replicate n) |}.
Proof.
  revert s. induction ds as [|d ds IH]; intros s; cbn [foldl mbind list_bind].
  - unfold stream_flush. by rewrite app_nil_r.
  - rewrite IH. f_equal.
    assert (∀ s, flushed (Nat.iter n (stream_write d) s) = flushed s
                 ∧ pending (Nat.iter n (stream_write d) s) = pending s ++ replicate n d)
      as Hiter.
    { clear. intros s. induction n as [|n [IH1 IH2]]; simpl.
      - by rewrite app_nil_r.
      - rewrite IH1, IH2. split; [done|].
        rewrite <- app_assoc. f_equal. by rewrite <- replicate_cons_app. }
    destruct (Hiter s) as [-> ->]. by rewrite <- !app_assoc.
Qed.

Section TeeFacts.
Implicit Types (self : Tee) (h : gmap nat stream) (l : nat).

Lemma foldl_alter_lookup (f : stream → stream) (ls : list nat) h l :
  foldl (λ h s, alter f s h) h ls !! l
  = Nat.iter (length (filter (λ s, s = l) ls)) f <$> h !! l.
Proof.
  revert h. induction ls as [|s ls IH]; intros h; cbn [foldl].
  - by destruct (h !! l).
  - rewrite IH, filter_cons. case_decide as Hs.
    + subst s. rewrite lookup_alter_eq. cbn [length].
      destruct (h !! l) as [x|]; [|done]. cbn [fmap option_fmap option_map].
      by rewrite Nat.iter_succ_r.
    + by rewrite lookup_alter_ne.
Qed.

(** X21.  One [write] of a [Tee] appends the data to each of its streams,
    once per time the stream is listed, and touches no other stream. *)
Theorem Tee_write_streams self (data : string) h l :
  Tee_write self data h !! l
  = Nat.iter (length (filter (λ s, s = l) (streams self))) (stream_write data) <$> h !! l.
Proof. apply foldl_alter_lookup. Qed.

Lemma Tee_writes_lookup self (ds : list string) h l :
  foldl (λ h d, Tee_write self d h) h ds !! l
  = (λ s, foldl (λ s d, Nat.iter (length (filter (λ s, s = l) (streams self)))
                          (stream_write d) s) s ds) <$> h !! l.
Proof.
  revert h. induction ds as [|d ds IH]; intros h; cbn [foldl].
  - by destruct (h !! l).
  - rewrite IH. unfold Tee_write. rewrite foldl_alter_lookup. by destruct (h !! l).
Qed.

Lemma count_NoDup (ls : list nat) l :
  NoDup ls → l ∈ ls → length (filter (λ s, s = l) ls) = 1%nat.
Proof.
  induction 1 as [|s ls Hs Hnd IH]; [by intros ?%elem_of_nil|].
  rewrite filter_cons. intros [->|Hl]%elem_of_cons.
  - rewrite decide_True by done. cbn [length]. f_equal.
    rewrite filter_none; [done|]. apply Forall_forall. by intros ? ? ->.
  - rewrite decide_False by (by intros ->). by apply IH.
Qed.

Lemma count_not_in (ls : list nat) l :
  l ∉ ls → length (filter (λ s, s = l) ls) = 0%nat.
Proof.
  intros Hl. rewrite filter_none; [done|]. apply Forall_forall. by intros ? ? ->.
Qed.

(** X22.  What a [Tee] over distinct streams leaves behind: after a
    sequence of writes and a flush, each of its streams holds what it held
    before followed by the data written, in order and once; a stream that is
    not one of them is as it was. *)
Theorem Tee_transcript self (ds : list string) h l (s : stream) :
  NoDup (streams self) → h !! l = Some s →
  (l ∈ streams self →
   Tee_flush self (foldl (λ h d, Tee_write self d h) h ds) !! l
   = Some {| pending := []; flushed := flushed s ++ pending s ++ ds |})
  ∧ (l ∉ streams self →
     Tee_flush self (foldl (λ h d, Tee_write self d h) h ds) !! l = Some s).
Proof.
  intros Hnd Hl. unfold Tee_flush. rewrite foldl_alter_lookup, Tee_writes_lookup, Hl.
  cbn [fmap option_fmap option_map]. split; intros Hin.
  - rewrite (count_NoDup _ _ Hnd Hin). cbn [Nat.iter nat_rect].
    rewrite (iter_write_flush 1).
    assert (ds ≫= replicate 1 = ds) as ->; [|done].
    clear. induction ds as [|d ds IH]; [done|]. simpl. by f_equal.
  - rewrite (count_not_in _ _ Hin). cbn [Nat.iter nat_rect].
    clear. revert s. induction ds as [|d ds IH]; intros s; [done|]. simpl. apply IH.
Qed.
End TeeFacts.

(** * Worked examples *)

(** Settle a closed, decidable statement by evaluation. *)
Ltac by_eval := apply (bool_decide_unpack _); vm_compute; exact I.

Lemma event_cleaned_Ok : Lib.clean_abandonments event = Ok event_cleaned.
Proof. vm_compute. reflexivity. Qed.

Lemma odd_events_cleaned_Ok : Lib.clean_abandonments odd_events = Ok odd_events_cleaned.
Proof. vm_compute. reflexivity. Qed.

Lemma shelters_cleaned_Ok : Lib.clean_shelters shelters = Ok shelters_cleaned.
Proof. vm_compute. reflexivity. Qed.

Lemma merged_Ok : Lib.merge_abandonments_with_shelters event_cleaned shelters_cleaned = Ok merged.
Proof. vm_compute. reflexivity. Qed.

(** The end-to-end event: cleaning its cleaned table changes nothing. *)
Lemma clean_abandonments_idempotent_witness :
  Lib.clean_abandonments event = Ok event_cleaned
  ∧ Lib.clean_abandonments event_cleaned = Ok event_cleaned.
Proof.
  split; [exact event_cleaned_Ok|].
  exact (clean_abandonments_idempotent Lib.float Lib.str_to_float Lib.float_rsub
           Lib.current_year Lib.in_bounds Lib.isdecimal Lib.py_str Lib.to_datetime_infer
           Lib.str_accessor_ok event event_cleaned event_cleaned_Ok).
Defined.

(** The end-to-end event has no sido column: sido is the first token of the
    region string and sigungu its second token. *)
Lemma region_fields_witness :
  get event "sigungu" = Some [Str region]
  ∧ cell event_cleaned "sido" 0 = Some (Str seoul)
  ∧ cell event_cleaned "sigungu" 0 = Some (Str gangnam_gu).
Proof.
  assert (get event "sigungu" = Some [Str region]) as Hsigungu by (vm_compute; reflexivity).
  destruct (region_fields Lib.float Lib.str_to_float Lib.float_rsub
              Lib.current_year Lib.in_bounds Lib.isdecimal Lib.py_str Lib.to_datetime_infer
              Lib.str_accessor_ok event event_cleaned [Str region] 0%nat (Str region)
              event_cleaned_Ok Hsigungu eq_refl) as (_ & Hsido & Hsg).
  split; [exact Hsigungu|]. split; [|exact Hsg].
  apply Hsido. vm_compute. reflexivity.
Defined.

(** The canonical sigungu of the end-to-end event holds a value, and the
    cleaned table holds another. *)
Lemma region_sigungu_overwritten :
  Lib.clean_abandonments event = Ok event_cleaned
  ∧ cell event "sigungu" 0 = Some (Str (seoul ++ [32%N] ++ gangnam_gu))
  ∧ cell event_cleaned "sigungu" 0 = Some (Str gangnam_gu)
  ∧ cell event_cleaned "sigungu" 0 ≠ cell event "sigungu" 0.
Proof.
  split; [exact event_cleaned_Ok|]. split; [vm_compute; reflexivity|].
  split; [vm_compute; reflexivity|]. vm_compute. discriminate.
Qed.

Lemma species_breed_split_witness :
  cell event_cleaned "species" 0 = Some (Str gae)
  ∧ cell event_cleaned "breed" 0 = Some (Str mixgyeon).
Proof.
  assert (get event "raw" = Some [event_raw]) as Hraw by (vm_compute; reflexivity).
  destruct (species_breed_split Lib.float Lib.str_to_float Lib.float_rsub
              Lib.current_year Lib.in_bounds Lib.isdecimal Lib.py_str Lib.to_datetime_infer
              Lib.str_accessor_ok event event_cleaned _ 0%nat _ kind_full
              event_cleaned_Ok Hraw eq_refl eq_refl) as [Hsplit _].
  apply (Hsplit gae [32%N] mixgyeon).
  - reflexivity.
  - by_eval.
  - by_eval.
  - by repeat constructor.
  - reflexivity.
  - intros H%has_group_open. revert H. by_eval.
Defined.

(** A second group is removed from the breed as well, and a group that is
    not a prefix gives the species. *)
Lemma species_breed_groups :
  Lib.clean_abandonments odd_events = Ok odd_events_cleaned
  ∧ (cell odd_events "raw" 0 ≫= λ r, Some (get_raw r "kindFullNm"))
    = Some (text "[dog] mix [small]")
  ∧ cell odd_events_cleaned "species" 0 = Some (text "dog")
  ∧ cell odd_events_cleaned "breed" 0 = Some (text "mix ")
  ∧ cell odd_events_cleaned "breed" 0 ≠ Some (text "mix [small]")
  ∧ (cell odd_events "raw" 1 ≫= λ r, Some (get_raw r "kindFullNm"))
    = Some (text "mix [small]")
  ∧ cell odd_events_cleaned "species" 1 = Some (text "small")
  ∧ cell odd_events_cleaned "breed" 1 = Some (text "mix ").
Proof.
  split; [exact odd_events_cleaned_Ok|].
  repeat split; try (vm_compute; reflexivity). vm_compute. discriminate.
Qed.

Lemma weight_cleaning_witness :
  cell event_cleaned "weight" 0 = Some (Float (68, -1))
  ∧ Lib.clean_weight (text "6.8(Kg)") = to_numeric Lib.float Lib.str_to_float (text "6.8").
Proof.
  assert (get event "raw" = Some [event_raw]) as Hraw by (vm_compute; reflexivity).
  destruct (weight_cleaning Lib.float Lib.str_to_float Lib.float_rsub
              Lib.current_year Lib.in_bounds Lib.isdecimal Lib.py_str Lib.to_datetime_infer
              Lib.str_accessor_ok event event_cleaned _ 0%nat _
              event_cleaned_Ok Hraw eq_refl) as (Hcell & Hunit & _).
  split; [exact Hcell|].
  apply (Hunit (py "6.8") (py "Kg")); [done|by_eval..].
Defined.

(** A group that is not a suffix is stripped too: the text is not passed
    to numeric coercion unchanged. *)
Lemma weight_leading_group :
  Lib.clean_abandonments odd_events = Ok odd_events_cleaned
  ∧ (cell odd_events "raw" 0 ≫= λ r, Some (get_raw r "weight")) = Some (text "(approx)6.8")
  ∧ cell odd_events_cleaned "weight" 0 = Some (Float (68, -1))
  ∧ to_numeric Lib.float Lib.str_to_float (text "(approx)6.8") = NA NaN.
Proof.
  split; [exact odd_events_cleaned_Ok|]. repeat split; vm_compute; reflexivity.
Qed.


Lemma registrations_backfilled_witness :
  ∃ out, Lib.clean_registrations registration = Ok out
    ∧ cell out "sido" 0 = Some (text "Seoul")
    ∧ cell out "sigungu" 0 = Some (text "Jongno-gu")
    ∧ cell out "birthYear" 0 = Some (Float (2019, 0))
    ∧ cell out "count" 0 = Some (Float (12, 0)).
Proof.
  destruct (registrations_backfilled Lib.float Lib.str_to_float registration [Dict payload])
    as (out & Hout & _ & _ & _ & _ & Hcells); try (vm_compute; reflexivity).
  exists out. split; [exact Hout|].
  apply (Hcells 0%nat payload (text "Seoul") (text "Jongno-gu") (text "2019") (text "12"));
    reflexivity.
Defined.

Lemma shelters_missing_address_witness :
  cell shelters "careAddr" 2 = Some (NA NaN)
  ∧ cell shelters_cleaned "careAddr" 2 = Some (text "nan")
  ∧ cell shelters_cleaned "sido" 2 = Some (text "nan")
  ∧ cell shelters_cleaned "sigungu" 2 = Some (NA PyNone).
Proof.
  assert (get shelters "careAddr" = Some [text "Seoul Mapo-gu 1"; NA PyNone; NA NaN])
    as Haddr by (vm_compute; reflexivity).
  destruct (shelters_missing_address Lib.float Lib.py_str Lib.to_datetime_infer
              shelters shelters_cleaned _ 2%nat NaN shelters_cleaned_Ok Haddr eq_refl)
    as (H1 & H2 & H3 & _).
  split; [vm_compute; reflexivity|]. by split_and!.
Defined.

(** A null address becomes the text "None", not "nan". *)
Lemma shelters_null_address :
  Lib.clean_shelters shelters = Ok shelters_cleaned
  ∧ cell shelters "careAddr" 1 = Some (NA PyNone)
  ∧ cell shelters_cleaned "careAddr" 1 = Some (text "None")
  ∧ cell shelters_cleaned "sido" 1 = Some (text "None")
  ∧ cell shelters_cleaned "sido" 1 ≠ Some (text "nan").
Proof.
  split; [exact shelters_cleaned_Ok|].
  repeat split; try (vm_compute; reflexivity). vm_compute. discriminate.
Qed.





(** ** The rest of the pipeline *)

Lemma registration_cleaned_Ok : Lib.clean_registrations registration = Ok registration_cleaned.
Proof. vm_compute. reflexivity. Qed.


Lemma clean_abandonments_columns_witness :
  get event_cleaned "_sido_tmp" = None
  ∧ get event_cleaned "uid" = get event "uid"
  ∧ get event_cleaned "careNm" = get event "careNm".
Proof.
  destruct (clean_abandonments_columns Lib.float Lib.str_to_float Lib.float_rsub
              Lib.current_year Lib.in_bounds Lib.isdecimal Lib.py_str Lib.to_datetime_infer
              Lib.str_accessor_ok event event_cleaned event_cleaned_Ok)
    as (_ & Htmp & _ & _ & Hkeep).
  split; [exact Htmp|]. split; apply Hkeep; by_eval.
Defined.

Lemma wf_event : wf event.
Proof.
  intros c s Hc.
  apply (map_Forall_lookup_1 (λ _ s, length s = nrows event) (columns event) c s);
    [by_eval|exact Hc].
Qed.

Lemma clean_abandonments_wf_witness : wf event ∧ wf event_cleaned.
Proof.
  split; [exact wf_event|].
  apply (clean_abandonments_wf Lib.float Lib.str_to_float Lib.float_rsub
           Lib.current_year Lib.in_bounds Lib.isdecimal Lib.py_str Lib.to_datetime_infer
           Lib.str_accessor_ok event event_cleaned wf_event).
  - intros s. unfold Lib.to_datetime_infer. apply length_fmap.
  - exact event_cleaned_Ok.
Defined.






Lemma clean_registrations_columns_witness :
  get registration "sido" = None
  ∧ get registration_cleaned "sido" = Some [text "Seoul"].
Proof.
  assert (get registration "sido" = None) as Hno by (vm_compute; reflexivity).
  split; [exact Hno|].
  destruct (clean_registrations_columns Lib.float Lib.str_to_float registration
              registration_cleaned registration_cleaned_Ok) as (_ & Hkept & _).
  destruct (Hkept "sido" "CTPV") as [_ Hraw]; [rewrite !elem_of_cons; tauto|].
  destruct (Hraw Hno) as (raw & Eraw & ->).
  assert (raw = [Dict payload]) as ->; [|reflexivity].
  revert Eraw. vm_compute. congruence.
Defined.

Lemma clean_registrations_required_witness :
  get no_month "raw" = None ∧ get no_month "birthYear" = None
  ∧ Lib.clean_registrations no_month = Raise (KeyError "raw").
Proof.
  assert (get no_month "raw" = None) as Hraw by (vm_compute; reflexivity).
  assert (get no_month "birthYear" = None) as Hby by (vm_compute; reflexivity).
  split; [exact Hraw|]. split; [exact Hby|].
  destruct (clean_registrations_required Lib.float Lib.str_to_float no_month) as (_ & _ & Hno).
  apply (Hno Hraw). rewrite !Exists_cons. tauto.
Defined.

Lemma clean_registrations_idempotent_witness :
  Lib.clean_registrations registration = Ok registration_cleaned
  ∧ Lib.clean_registrations registration_cleaned = Ok registration_cleaned.
Proof.
  split; [exact registration_cleaned_Ok|].
  exact (clean_registrations_idempotent Lib.float Lib.str_to_float registration
           registration_cleaned registration_cleaned_Ok).
Defined.

Lemma clean_shelters_required_witness :
  get no_month "careAddr" = None ∧ Lib.clean_shelters no_month = Raise AttributeError.
Proof.
  assert (get no_month "careAddr" = None) as Haddr by (vm_compute; reflexivity).
  split; [exact Haddr|].
  destruct (clean_shelters_required Lib.float Lib.py_str Lib.to_datetime_infer no_month)
    as [Hno _].
  exact (Hno Haddr).
Defined.

Lemma clean_shelters_columns_witness :
  get shelters_cleaned "careNm" = get shelters "careNm"
  ∧ cell shelters_cleaned "sido" 0
    = (λ a, (split_addr a).1) <$> cell shelters_cleaned "careAddr" 0.
Proof.
  destruct (clean_shelters_columns Lib.float Lib.py_str Lib.to_datetime_infer
              shelters shelters_cleaned shelters_cleaned_Ok)
    as (_ & Hsido & _ & _ & _ & _ & Hkeep).
  split; [apply Hkeep; by_eval|apply Hsido].
Defined.

Lemma clean_shelters_idempotent_witness :
  Lib.clean_shelters shelters = Ok shelters_cleaned
  ∧ Lib.clean_shelters shelters_cleaned = Ok shelters_cleaned.
Proof.
  split; [exact shelters_cleaned_Ok|].
  apply (clean_shelters_idempotent Lib.float Lib.py_str Lib.to_datetime_infer
           shelters shelters_cleaned); [|exact shelters_cleaned_Ok].
  intros s. unfold Lib.to_datetime_infer. by rewrite <- list_fmap_compose.
Defined.


Lemma join_rows_keys_witness :
  (0%nat, Some 0%nat)
  ∈ join_rows Lib.float Lib.key_eqb_other [text "Hope"]
      [text "Hope"; text "Haven"; text "Harbour"].
Proof.
  destruct (join_rows_keys Lib.float Lib.key_eqb_other [text "Hope"]
              [text "Hope"; text "Haven"; text "Harbour"] 0%nat) as (_ & _ & Htext).
  by apply (Htext 0%nat (py "Hope") (py "Hope")).
Defined.

Lemma join_rows_order_witness :
  NoDup (join_rows Lib.float Lib.key_eqb_other [text "Hope"; text "Nowhere"]
           [text "Hope"; text "Haven"; text "Hope"])
  ∧ join_rows Lib.float Lib.key_eqb_other [text "Hope"; text "Nowhere"] []
    = [(0%nat, None); (1%nat, None)].
Proof.
  destruct (join_rows_order Lib.float Lib.key_eqb_other [text "Hope"; text "Nowhere"]
              [text "Hope"; text "Haven"; text "Hope"]) as (_ & Hnd & _).
  split; [exact Hnd|].
  destruct (join_rows_order Lib.float Lib.key_eqb_other [text "Hope"; text "Nowhere"] [])
    as (_ & _ & _ & _ & Hempty).
  exact (Hempty eq_refl).
Defined.




Lemma Tee_transcript_witness :
  Tee_flush tee (foldl (λ h d, Tee_write tee d h) sinks ["a"; "b"]) !! 0%nat
  = Some {| pending := []; flushed := ["kept"; "a"; "b"] |}
  ∧ Tee_flush tee (foldl (λ h d, Tee_write tee d h) sinks ["a"; "b"]) !! 2%nat
    = Some {| pending := []; flushed := [] |}.
Proof.
  destruct (Tee_transcript tee ["a"; "b"] sinks 0%nat {| pending := ["kept"]; flushed := [] |})
    as [Hin _]; [by_eval|vm_compute; reflexivity|].
  destruct (Tee_transcript tee ["a"; "b"] sinks 2%nat {| pending := []; flushed := [] |})
    as [_ Hout]; [by_eval|vm_compute; reflexivity|].
  split; [apply Hin; by_eval|apply Hout; by_eval].
Defined.
